(** * doclingserver: the job-scoped PDF analysis pipeline

    A shallow embedding of [src/api_server.py] (the [analyze_document]
    endpoint) and [src/document_analyzer.py] (the [DocumentAnalyzer] class),
    with the properties of the analysis pipeline stated and proved over it.

    Conventions of the embedding:
    - a Python [str] is a [string]; its operations are defined on the list of
      its characters.  Only the ASCII range of [str.lower] is modelled;
    - a path is the string [str(path)]; [Path.__truediv__] joins with ["/"].
      Paths are assumed normalised, with a final component that is neither
      empty nor ["."], which is what [pathlib] produces for the paths built
      here;
    - the file system is a finite map from paths to contents plus a set of
      directories, and every call that touches it (or an external engine) is
      appended to a trace, oldest event first.  Which calls fail is decided
      by the environment ([os_env], [engines]); a [mkdir] that fails is taken
      to have made no directory, a write once the file is open is taken to
      succeed, and [Path.exists] is taken to answer, as it does on a path
      that has just been opened;
    - Python exceptions are values of [exn]; code that can raise lives in the
      monad [M] of state and exceptions, with [try_except] and [try_finally]
      for the handlers;
    - [logging] and [print] calls have no effect on the modelled state and are
      left out; the two wall-clock readings are environment values.

    Layout: the embedding of the two modules; the vocabulary of the
    statements and the sample inputs; facts about strings and paths, the
    monad, the exporters and the endpoint; then the properties C1 to C10
    and the further properties X1 and following, each under its number.  *)

From Stdlib Require Import ZArith Ascii Strings.Byte DecimalString DecimalNat.
From stdpp Require Import gmap strings list fin_maps.

Local Open Scope Z_scope.

(** ** Python strings *)

Module PyStr.

Abbreviation chars := String.list_ascii_of_string.
Abbreviation of_chars := String.string_of_list_ascii.

(** [c.lower()] for one ASCII character. *)
Definition ascii_lower (c : ascii) : ascii :=
  let n := nat_of_ascii c in
  if ((65 <=? n) && (n <=? 90))%nat then ascii_of_nat (n + 32) else c.

(** [s.lower()] *)
Definition lower (s : string) : string := of_chars (ascii_lower <$> chars s).

(** [s.endswith(suffix)] *)
Definition endswith (s suffix : string) : bool :=
  bool_decide (chars suffix `suffix_of` chars s).

(** [needle in s], on character lists: some tail of [s] starts with
    [needle]. *)
Fixpoint contains_chars (needle s : list ascii) : bool :=
  bool_decide (needle `prefix_of` s) ||
  match s with
  | [] => false
  | _ :: s' => contains_chars needle s'
  end.

(** [needle in s] *)
Definition contains (needle s : string) : bool :=
  contains_chars (chars needle) (chars s).

(** [s.rfind(c)], with [None] for Python's [-1]. *)
Fixpoint rfind (c : ascii) (s : list ascii) : option nat :=
  match s with
  | [] => None
  | a :: s' =>
      match rfind c s' with
      | Some i => Some (S i)
      | None => if Ascii.eqb a c then Some 0%nat else None
      end
  end.

(** [str(n)] for a natural number, as an f-string prints it. *)
Definition str_of_nat (n : nat) : string :=
  NilEmpty.string_of_uint (Nat.to_uint n).

(** [len(s)] *)
Abbreviation len := String.length.

End PyStr.

(** ** pathlib *)

Module Path.
Import PyStr.

(** [parent / child] *)
Definition join (parent child : string) : string :=
  parent +:+ "/" +:+ child.

(** [PurePath.name]: the final component. *)
Definition name (p : string) : string :=
  match rfind "/"%char (chars p) with
  | Some i => of_chars (drop (S i) (chars p))
  | None => p
  end.

(** [PurePath.stem]: the final component without its last suffix.  As in
    [pathlib], a dot that starts or ends the name does not open a suffix:
    [i = name.rfind('.')], and the stem is [name[:i]] when
    [0 < i < len(name) - 1], else the whole name. *)
Definition stem (p : string) : string :=
  let nm := chars (name p) in
  match rfind "."%char nm with
  | Some i =>
      if bool_decide (0 < i ∧ i < length nm - 1)%nat
      then of_chars (take i nm)
      else name p
  | None => name p
  end.

(** [PurePath.parent]: the path without its final component; the root is its
    own parent, and a relative path of one component has the parent ".". *)
Definition parent (p : string) : string :=
  match rfind "/"%char (chars p) with
  | Some O => "/"
  | Some i => of_chars (take i (chars p))
  | None => "."
  end.

(** [PurePath.parents]: the parent, its parent, and so on up to the root (or
    "."), nearest first.  Each step but the last shortens the path, so [fuel]
    above its length is never exhausted ([parents_from_fuel]). *)
Fixpoint parents_from (fuel : nat) (p : string) : list string :=
  match fuel with
  | O => []
  | S fuel' =>
      let q := parent p in
      if bool_decide (q = p) then [] else q :: parents_from fuel' q
  end.

Definition parents (p : string) : list string :=
  parents_from (S (length (chars p))) p.

End Path.

Infix "//" := Path.join (at level 40, left associativity).

(** ** Exceptions and file-system state *)

(** The exception classes the two modules raise or catch.  [HTTPException] is
    the only one [analyze_document] re-raises; everything else is an
    [Exception] to it. *)
Inductive exn :=
| HTTPException (status_code : Z) (detail : string)
| TypeError (msg : string)
| ValueError (msg : string)
| OSError (msg : string)
| EngineError (msg : string).

(** [str(e)] *)
Definition str_exn (e : exn) : string :=
  match e with
  | HTTPException c d => PyStr.str_of_nat (Z.to_nat c) +:+ ": " +:+ d
  | TypeError m | ValueError m | OSError m | EngineError m => m
  end.

Definition is_HTTPException (e : exn) : bool :=
  match e with HTTPException _ _ => true | _ => false end.

(** What a file holds.  The summary report is kept as the value handed to
    [json.dump], not as its serialisation. *)
Inductive stat_value := VStr (s : string) | VInt (n : Z).

Inductive content :=
| Binary (data : list byte)
| Text (s : string)
| JsonReport (analysis_date : string) (statistics : list (string * stat_value)).

(** Calls that reach the file system or an external engine, logged when they
    are made (whether or not they then fail). *)
Inductive event :=
| EvOpen (path : string)
| EvAppend (path : string) (chunk : list byte)
| EvWriteFile (path : string) (c : content)
| EvMkdir (path : string)
| EvUnlink (path : string)
| EvGlob (dir pattern : string)
| EvConvert (path : string)
| EvFitzOpen (path : string).

Record world := World {
  files : gmap string content;
  dirs : gset string;
  trace : list event
}.

(** The operating system as the code sees it: which calls fail, the job id
    [uuid.uuid4()] hands out, the clock readings (in hundredths of a second,
    the precision [round(_, 2)] keeps), [datetime.now().isoformat()], and the
    listing [Path.glob] returns. *)
Record os_env := OsEnv {
  open_error : string → option string;
  mkdir_error : string → option string;
  unlink_error : string → option string;
  glob : gmap string content → string → string → list string;
  uuid4 : string;
  time_start : Z;
  time_end : Z;
  now_isoformat : string
}.

(** ** The monad of state and exceptions *)

Inductive res (A : Type) :=
| Ok (a : A)
| Raise (e : exn).
Arguments Ok {A} a.
Arguments Raise {A} e.

Definition M (A : Type) : Type := world → res A * world.

Definition ret {A} (a : A) : M A := fun w => (Ok a, w).
Definition raise {A} (e : exn) : M A := fun w => (Raise e, w).
Definition bind {A B} (m : M A) (k : A → M B) : M B :=
  fun w => match m w with
           | (Ok a, w') => k a w'
           | (Raise e, w') => (Raise e, w')
           end.

(** [try: m  except Exception as e: h e] *)
Definition try_except {A} (m : M A) (h : exn → M A) : M A :=
  fun w => match m w with
           | (Ok a, w') => (Ok a, w')
           | (Raise e, w') => h e w'
           end.

(** [try: m  finally: f].  An exception out of [f] replaces the outcome of
    [m]. *)
Definition try_finally {A} (m : M A) (f : M unit) : M A :=
  fun w => match m w with
           | (r, w') => match f w' with
                        | (Ok _, w'') => (r, w'')
                        | (Raise e, w'') => (Raise e, w'')
                        end
           end.

#[global] Instance M_ret : MRet M := @ret.
#[global] Instance M_bind : MBind M := fun A B k m => bind m k.

(** Read and update the state. *)
Definition gets {A} (f : world → A) : M A := fun w => (Ok (f w), w).
Definition modify (f : world → world) : M unit := fun w => (Ok tt, f w).

Definition set_files (f : gmap string content → gmap string content) (w : world) : world :=
  World (f (files w)) (dirs w) (trace w).
Definition set_dirs (f : gset string → gset string) (w : world) : world :=
  World (files w) (f (dirs w)) (trace w).

(** The world after a call has been logged. *)
Definition logged (e : event) (w : world) : world :=
  World (files w) (dirs w) (trace w ++ [e]).

Definition log_event (e : event) : M unit := modify (logged e).

(** An operating-system call that may fail with [OSError]. *)
Definition os_call (error : option string) (effect : world → world) : M unit :=
  match error with
  | Some msg => raise (OSError msg)
  | None => modify effect
  end.

Section Primitives.
Context (os : os_env).

(** [open(path, 'wb')]: creates or truncates the file. *)
Definition open_wb (path : string) : M unit :=
  log_event (EvOpen path);;
  os_call (open_error os path) (set_files <[path := Binary []]>).

(** [f.write(chunk)] on a file opened by [open_wb]. *)
Definition append_bytes (path : string) (chunk : list byte) : M unit :=
  log_event (EvAppend path chunk);;
  modify (set_files (fun fs =>
    let old := match fs !! path with Some (Binary b) => b | _ => [] end in
    <[path := Binary (old ++ chunk)]> fs)).

(** [with open(path, mode) as f: f.write(c)] (and [df.to_csv(path)],
    [json.dump(_, f)]): the whole file at once. *)
Definition write_file (path : string) (c : content) : M unit :=
  log_event (EvWriteFile path c);;
  os_call (open_error os path) (set_files <[path := c]>).

(** [path.mkdir(exist_ok=True)]: the directory itself. *)
Definition mkdir (path : string) : M unit :=
  log_event (EvMkdir path);;
  os_call (mkdir_error os path) (set_dirs (fun ds => {[path]} ∪ ds)).

(** [path.mkdir(parents=True, exist_ok=True)]: the directory and every
    ancestor that is missing.  [mkdir_error] answers for the call as a whole,
    and a call that fails is taken to have made no directory. *)
Definition mkdir_parents (path : string) : M unit :=
  log_event (EvMkdir path);;
  os_call (mkdir_error os path)
    (set_dirs (fun ds => list_to_set (path :: Path.parents path) ∪ ds)).

(** [path.unlink()] *)
Definition unlink (path : string) : M unit :=
  log_event (EvUnlink path);;
  os_call (unlink_error os path) (set_files (delete path)).

(** [path.exists()], taken to answer.  It does on a path that has just been
    opened or made; the [OSError] that [stat] can raise on other paths (a
    name that is too long, a directory that may not be searched) is not
    modelled. *)
Definition path_exists (path : string) : M bool :=
  gets (fun w => bool_decide (is_Some (files w !! path)) || bool_decide (path ∈ dirs w)).

End Primitives.

(** ** The external engines

    [docling] and PyMuPDF are collaborators, modelled by the shape of what
    they return. *)

Module Docling.

Record TextItem := { label : string }.

(** [DataFrame.to_csv(path, index=False)] writes [to_csv]. *)
Record DataFrame := { to_csv : string }.

Record TableItem := { export_to_dataframe : DataFrame }.

Inductive PictureItem := Picture.

Record DoclingDocument := {
  name : string;
  texts : list TextItem;
  tables : list TableItem;
  pictures : list PictureItem;
  export_to_markdown : string
}.

Record ConversionResult := { document : DoclingDocument }.

End Docling.

Module Fitz.

(** The dict [doc.extract_image(xref)] returns. *)
Record base_image := { image : list byte; ext : string }.

(** An opened PDF: [get_images] lists, page by page, the xref that heads
    each tuple of [page.get_images()]. *)
Record Document := {
  get_images : list (list nat);
  extract_image : nat → res base_image
}.

End Fitz.

(** [DocumentConverter().convert(path)] and [fitz.open(path)] *)
Record engines := Engines {
  convert : string → res Docling.ConversionResult;
  fitz_open : string → res Fitz.Document
}.

(** Lift the outcome of an engine call. *)
Definition of_res {A} (r : res A) : M A := fun w => (r, w).

(** [for i, x in enumerate(l, start): body i x] *)
Fixpoint for_enumerate {A} (start : nat) (l : list A) (body : nat → A → M unit) : M unit :=
  match l with
  | [] => mret tt
  | x :: l' => body start x;; for_enumerate (S start) l' body
  end.

(** ** [document_analyzer.py] *)

Record DocumentAnalyzer := {
  pdf_path : string;
  result : option Docling.ConversionResult;
  doc : option Docling.DoclingDocument
}.

(** The parameters of [__init__] after [self]. *)
Definition DocumentAnalyzer_params : list string := ["pdf_path"].

Section Analyzer.
Context (os : os_env) (ext : engines).
Import PyStr.

(** A call of the class with positional and keyword arguments.  Python binds
    the arguments to [__init__(self, pdf_path)] before the body runs, and a
    keyword that names no parameter raises [TypeError].  The body stores the
    path and builds the converter, which is the [convert] of [engines]. *)
Definition DocumentAnalyzer_new (args : list string) (kwargs : list (string * string))
  : M DocumentAnalyzer :=
  match List.find (fun kv => negb (bool_decide (kv.1 ∈ DocumentAnalyzer_params))) kwargs with
  | Some (k, _) =>
      raise (TypeError ("DocumentAnalyzer.__init__() got an unexpected keyword argument '"
                        +:+ k +:+ "'"))
  | None =>
      match args, kwargs with
      | [p], [] | [], [(_, p)] => mret {| pdf_path := p; result := None; doc := None |}
      | _, _ =>
          raise (TypeError "DocumentAnalyzer.__init__() arguments do not match (self, pdf_path)")
      end
  end.

(** The guard at the head of the methods that need a converted document. *)
Definition not_converted {A} : M A :=
  raise (ValueError "Document not converted yet. Call analyze() first.").

(** The condition of the list comprehension that collects the headings. *)
Definition is_heading (t : Docling.TextItem) : bool :=
  contains "heading" (lower (Docling.label t))
  || contains "section_header" (lower (Docling.label t)).

(** The dict of statistics, in insertion order. *)
Definition _get_statistics (self : DocumentAnalyzer) : M (list (string * stat_value)) :=
  match doc self with
  | None => not_converted
  | Some d =>
      let headings := List.filter is_heading (Docling.texts d) in
      mret [ ("Document Name", VStr (Docling.name d));
             ("Total Text Elements", VInt (Z.of_nat (length (Docling.texts d))));
             ("Total Headings", VInt (Z.of_nat (length headings)));
             ("Total Tables", VInt (Z.of_nat (length (Docling.tables d))));
             ("Total Pictures", VInt (Z.of_nat (length (Docling.pictures d)))) ]
  end.

(** [output_dir / f"{Path(self.pdf_path).stem}_table_{i+1}.csv"] *)
Definition table_csv_path (output_dir pdf : string) (i : nat) : string :=
  output_dir // (Path.stem pdf +:+ "_table_" +:+ str_of_nat (i + 1) +:+ ".csv").

Definition _save_tables (self : DocumentAnalyzer) : M unit :=
  match doc self with
  | None => not_converted
  | Some d =>
      let output_dir := "output" in
      mkdir os output_dir;;
      for_enumerate 0 (Docling.tables d) (fun i table =>
        let df := Docling.export_to_dataframe table in
        let csv_path := table_csv_path output_dir (pdf_path self) i in
        write_file os csv_path (Text (Docling.to_csv df)))
  end.

Definition _save_markdown (self : DocumentAnalyzer) : M unit :=
  match result self with
  | None => not_converted
  | Some r =>
      let output_dir := "output" in
      mkdir os output_dir;;
      let markdown := Docling.export_to_markdown (Docling.document r) in
      let markdown_path := output_dir // (Path.stem (pdf_path self) +:+ ".md") in
      write_file os markdown_path (Text markdown)
  end.

Definition _create_summary_report (self : DocumentAnalyzer)
    (stats : list (string * stat_value)) : M unit :=
  let output_dir := "output" in
  mkdir os output_dir;;
  let report := JsonReport (now_isoformat os) stats in
  let report_path := output_dir // (Path.stem (pdf_path self) +:+ "_summary.json") in
  write_file os report_path report.

(** [images_dir / f"page{page_num+1}_img{img_index+1}.{image_ext}"] *)
Definition image_path (images_dir : string) (page_num img_index : nat) (image_ext : string)
  : string :=
  images_dir // ("page" +:+ str_of_nat (page_num + 1) +:+ "_img"
                 +:+ str_of_nat (img_index + 1) +:+ "." +:+ image_ext).

Definition _save_images (self : DocumentAnalyzer) : M unit :=
  match doc self with
  | None => not_converted
  | Some _ =>
      let output_dir := "output" in
      mkdir os output_dir;;
      let images_dir := output_dir // (Path.stem (pdf_path self) +:+ "_images") in
      mkdir os images_dir;;
      log_event (EvFitzOpen (pdf_path self));;
      pdf ← of_res (fitz_open ext (pdf_path self));
      for_enumerate 0 (Fitz.get_images pdf) (fun page_num images =>
        for_enumerate 0 images (fun img_index xref =>
          base_image ← of_res (Fitz.extract_image pdf xref);
          let image_bytes := Fitz.image base_image in
          let image_ext := Fitz.ext base_image in
          write_file os (image_path images_dir page_num img_index image_ext)
                     (Binary image_bytes)))
  end.

(** [analyze] returns [self] as the call leaves it. *)
Definition analyze (self : DocumentAnalyzer) : M DocumentAnalyzer :=
  log_event (EvConvert (pdf_path self));;
  r ← of_res (convert ext (pdf_path self));
  let self := {| pdf_path := pdf_path self; result := Some r;
                 doc := Some (Docling.document r) |} in
  stats ← _get_statistics self;
  _save_tables self;;
  _save_images self;;
  _save_markdown self;;
  _create_summary_report self stats;;
  mret self.

End Analyzer.

(** ** [api_server.py] *)

(** The storage settings of [class Config]. *)
Record Config := {
  OUTPUT_DIR : string;
  TEMP_DIR : string;
  MAX_FILE_SIZE_MB : Z
}.

(** An upload: its declared name and the bytes still to be read. *)
Record UploadFile := {
  filename : string;
  stream : list byte
}.

(** [await file.read(size)] *)
Definition UploadFile_read (size : nat) (file : UploadFile) : list byte * UploadFile :=
  (take size (stream file),
   {| filename := filename file; stream := drop size (stream file) |}).

(** The [results] dict of a completed job. *)
Record results_dict := {
  results_job_id : string;
  markdown_path : string;
  summary_path : string;
  results_tables : list string;
  images_dir : string
}.

Record AnalysisResult := {
  job_id : string;
  status : string;
  processing_time_seconds : Z;
  results : option results_dict;
  error : option string
}.

(** [str(n)] for an [int]. *)
Definition str_of_Z (n : Z) : string := NilEmpty.string_of_int (Z.to_int n).

Section Server.
Context (cfg : Config) (os : os_env) (ext : engines).
Import PyStr.

Definition size_limit : Z := MAX_FILE_SIZE_MB cfg * 1024 * 1024.

(** The [while chunk := await file.read(8192)] loop, with [file_size] the
    running count.  Each round consumes at least one byte, so [fuel] above the
    length of the stream is never exhausted ([save_chunks_fuel]). *)
Fixpoint save_chunks (fuel : nat) (temp_path : string) (file : UploadFile) (file_size : Z)
  : M Z :=
  match fuel with
  | O => mret file_size
  | S fuel' =>
      let '(chunk, file') := UploadFile_read (Z.to_nat 8192) file in
      match chunk with
      | [] => mret file_size
      | _ =>
          let file_size := file_size + Z.of_nat (length chunk) in
          if file_size >? size_limit then
            raise (HTTPException 413
                     ("File size exceeds " +:+ str_of_Z (MAX_FILE_SIZE_MB cfg) +:+ "MB limit"))
          else
            append_bytes temp_path chunk;;
            save_chunks fuel' temp_path file' file_size
      end
  end.

(** [with open(temp_path, 'wb') as f: ...] *)
Definition save_upload (temp_path : string) (file : UploadFile) : M Z :=
  open_wb os temp_path;;
  save_chunks (S (length (stream file))) temp_path file 0.

Definition processing_time : Z := time_end os - time_start os.

(** The inner [try] around [analyzer.analyze()]. *)
Definition run_analysis (analyzer : DocumentAnalyzer) : M DocumentAnalyzer :=
  try_except (analyze os ext analyzer)
    (fun e => raise (HTTPException 500 ("Document analysis failed: " +:+ str_exn e))).

(** From "Collect results" to the [return] of the completed job. *)
Definition collect_results (job_id temp_path job_output_dir : string) : M AnalysisResult :=
  let output_stem := Path.stem temp_path in
  let pattern := output_stem +:+ "_table_*.csv" in
  log_event (EvGlob job_output_dir pattern);;
  csv_files ← gets (fun w => glob os (files w) job_output_dir pattern);
  let results := {|
    results_job_id := job_id;
    markdown_path := job_output_dir // (output_stem +:+ ".md");
    summary_path := job_output_dir // (output_stem +:+ "_summary.json");
    results_tables := csv_files;
    images_dir := job_output_dir // (output_stem +:+ "_images")
  |} in
  mret {| job_id := job_id; status := "completed";
          processing_time_seconds := processing_time;
          results := Some results; error := None |}.

(** What follows the construction of the analyzer inside the outer [try]. *)
Definition after_construction (job_id temp_path job_output_dir : string)
    (analyzer : DocumentAnalyzer) : M AnalysisResult :=
  run_analysis analyzer;;
  collect_results job_id temp_path job_output_dir.

(** The body of the outer [try]. *)
Definition try_block (job_id temp_path : string) (file : UploadFile) : M AnalysisResult :=
  save_upload temp_path file;;
  let job_output_dir := OUTPUT_DIR cfg // job_id in
  mkdir_parents os job_output_dir;;
  analyzer ← DocumentAnalyzer_new [temp_path] [("output_dir", job_output_dir)];
  after_construction job_id temp_path job_output_dir analyzer.

(** [except HTTPException: raise] and [except Exception as e: return ...] *)
Definition on_exception (job_id : string) (e : exn) : M AnalysisResult :=
  if is_HTTPException e then raise e
  else mret {| job_id := job_id; status := "failed";
               processing_time_seconds := processing_time;
               results := None; error := Some (str_exn e) |}.

(** The [finally] clause. *)
Definition cleanup (temp_path : string) : M unit :=
  there ← path_exists temp_path;
  if there : bool then try_except (unlink os temp_path) (fun _ => mret tt)
  else mret tt.

(** The outer [try ... except ... finally] around a body. *)
Definition guarded (job_id temp_path : string) (body : M AnalysisResult) : M AnalysisResult :=
  try_finally (try_except body (on_exception job_id)) (cleanup temp_path).

Definition temp_path_of (job_id : string) (file : UploadFile) : string :=
  TEMP_DIR cfg // (job_id +:+ "_" +:+ filename file).

Definition analyze_document (file : UploadFile) : M AnalysisResult :=
  let job_id := uuid4 os in
  if negb (endswith (lower (filename file)) ".pdf") then
    raise (HTTPException 400 "Only PDF files are supported")
  else
    let temp_path := temp_path_of job_id file in
    guarded job_id temp_path (try_block job_id temp_path file).

End Server.


(** ** The rest of [api_server.py]

    The settings of [class Config] that are not in [Config] above
    ([LOG_LEVEL], [CORS_ORIGINS]) are arguments of the functions that read
    them, and so is the outcome of building a [DocumentConverter()], which
    the probes try. *)

(** [s.upper()] for one ASCII character and for a string. *)
Definition ascii_upper (c : ascii) : ascii :=
  let n := nat_of_ascii c in
  if ((97 <=? n) && (n <=? 122))%nat then ascii_of_nat (n - 32) else c.

Definition upper (s : string) : string :=
  String.string_of_list_ascii (ascii_upper <$> String.list_ascii_of_string s).

(** [s.split(sep)] for a one-character separator, on character lists: the
    pieces between the separators, empty pieces included. *)
Fixpoint split_chars (sep : ascii) (s : list ascii) : list (list ascii) :=
  match s with
  | [] => [[]]
  | c :: s' =>
      if Ascii.eqb c sep then [] :: split_chars sep s'
      else match split_chars sep s' with
           | piece :: pieces => (c :: piece) :: pieces
           | [] => [[c]]
           end
  end.

(** [s.split(",")] *)
Definition split_comma (s : string) : list string :=
  String.string_of_list_ascii <$> split_chars ","%char (String.list_ascii_of_string s).

(** [",".join(l)] *)
Definition join_comma (l : list string) : string := String.concat "," l.

(** [cors_origins], as computed at import time from [Config.CORS_ORIGINS]. *)
Definition cors_origins (CORS_ORIGINS : string) : list string :=
  if bool_decide (CORS_ORIGINS ≠ "*") then split_comma CORS_ORIGINS else ["*"].

(** [Config.setup_directories] *)
Definition setup_directories (cfg : Config) (os : os_env) : M unit :=
  mkdir_parents os (OUTPUT_DIR cfg);;
  mkdir_parents os (TEMP_DIR cfg).

(** The part of [lifespan] before the [yield]: the directories, then a trial
    construction of the converter whose failure is only logged. *)
Definition lifespan_startup (cfg : Config) (os : os_env) (DocumentConverter : res unit)
  : M unit :=
  setup_directories cfg os;;
  try_except (of_res DocumentConverter) (λ _, mret tt).

Module Readiness.

Record Response := {
  status : string;
  docling_ready : bool;
  storage_ready : bool
}.

End Readiness.

(** [readiness_check] *)
Definition readiness_check (cfg : Config) (DocumentConverter : res unit)
  : M Readiness.Response :=
  docling_ready ← try_except (of_res DocumentConverter;; mret true) (λ _, mret false);
  output_there ← path_exists (OUTPUT_DIR cfg);
  temp_there ← path_exists (TEMP_DIR cfg);
  let storage_ready := output_there && temp_there in
  if negb (docling_ready && storage_ready) then
    raise (HTTPException 503 "Service not ready")
  else
    mret {| Readiness.status := "ready";
            Readiness.docling_ready := docling_ready;
            Readiness.storage_ready := storage_ready |}.

(** A [JSONResponse] with a flat object as content. *)
Record JSONResponse := {
  status_code : Z;
  json_content : list (string * string)
}.

(** [global_exception_handler] *)
Definition global_exception_handler (LOG_LEVEL : string) (exc : exn) : JSONResponse :=
  {| status_code := 500;
     json_content :=
       [ ("error", "Internal server error");
         ("detail", if bool_decide (LOG_LEVEL = "DEBUG") then str_exn exc
                    else "An unexpected error occurred") ] |}.

(** The name [setup_logging] looks up in [logging] for the level of the root
    logger, and the [log_level] that [main] hands to [uvicorn.run]. *)
Definition setup_logging_level_name (LOG_LEVEL : string) : string := upper LOG_LEVEL.
Definition uvicorn_log_level (LOG_LEVEL : string) : string := PyStr.lower LOG_LEVEL.

(** ** Vocabulary of the statements *)

(** A label contains [needle] case-insensitively: some stretch of the label
    lowers to [needle]. *)
Definition contains_ci (needle label : string) : Prop :=
  ∃ pre mid post, label = pre +:+ mid +:+ post ∧ PyStr.lower mid = needle.

(** A decimal digit. *)
Definition is_digit (c : ascii) : bool :=
  match Ascii.is_nat c with Some _ => true | None => false end.

(** The world after a sequence of successful whole-file writes, in order. *)
Definition written (ws : list (string * content)) (w : world) : world :=
  World (foldl (λ fs pc, <[pc.1 := pc.2]> fs) (files w) ws)
        (dirs w)
        (trace w ++ ((λ pc, EvWriteFile pc.1 pc.2) <$> ws)).

(** The world after a successful [mkdir]. *)
Definition made_dir (path : string) (w : world) : world :=
  World (files w) ({[path]} ∪ dirs w) (trace w ++ [EvMkdir path]).

(** The world after a successful [mkdir] with [parents=True]. *)
Definition made_dirs (path : string) (w : world) : world :=
  World (files w) (list_to_set (path :: Path.parents path) ∪ dirs w)
        (trace w ++ [EvMkdir path]).

(** The CSV files [_save_tables] is to write for the tables of a document. *)
Definition table_writes (pdf : string) (tables : list Docling.TableItem)
  : list (string * content) :=
  imap (λ i table,
          ("output" // (Path.stem pdf +:+ "_table_" +:+ PyStr.str_of_nat (i + 1) +:+ ".csv"),
           Text (Docling.to_csv (Docling.export_to_dataframe table))))
       tables.

(** The same operating system with another answer to [unlink]. *)
Definition with_unlink_error (f : string → option string) (os : os_env) : os_env :=
  {| open_error := open_error os; mkdir_error := mkdir_error os; unlink_error := f;
     glob := glob os; uuid4 := uuid4 os; time_start := time_start os;
     time_end := time_end os; now_isoformat := now_isoformat os |}.

(** The image files [_save_images] is to write, given the images the reader
    returns page by page: pages in page order, images in reader order. *)
Definition image_writes (pdf : string) (images : list (list Fitz.base_image))
  : list (string * content) :=
  mjoin (imap (λ page_num page_images,
    imap (λ img_index img,
            ("output" // (Path.stem pdf +:+ "_images")
               // ("page" +:+ PyStr.str_of_nat (page_num + 1) +:+ "_img"
                   +:+ PyStr.str_of_nat (img_index + 1) +:+ "." +:+ Fitz.ext img),
             Binary (Fitz.image img)))
         page_images) images).

(** The descriptor of a failed job. *)
Definition failed_result (os : os_env) (job_id : string) (e : exn) : AnalysisResult :=
  {| job_id := job_id; status := "failed";
     processing_time_seconds := time_end os - time_start os;
     results := None; error := Some (str_exn e) |}.

(** What the outer [except] clauses make of the outcome of the [try] body. *)
Definition reported (os : os_env) (job_id : string) (r : res AnalysisResult)
  : res AnalysisResult :=
  match r with
  | Ok a => Ok a
  | Raise e => if is_HTTPException e then Raise e else Ok (failed_result os job_id e)
  end.

(** The world the [finally] clause leaves. *)
Definition cleaned (os : os_env) (temp_path : string) (w : world) : world :=
  if bool_decide (is_Some (files w !! temp_path)) || bool_decide (temp_path ∈ dirs w)
  then match unlink_error os temp_path with
       | None => World (delete temp_path (files w)) (dirs w) (trace w ++ [EvUnlink temp_path])
       | Some _ => logged (EvUnlink temp_path) w
       end
  else w.

(** The message of the 413 response. *)
Definition too_large (cfg : Config) : exn :=
  HTTPException 413 ("File size exceeds " +:+ str_of_Z (MAX_FILE_SIZE_MB cfg) +:+ "MB limit").

(** ** Sample inputs

    A deployment with the default directories, an operating system on which
    no call fails, and an upload [report.pdf] whose conversion yields two
    tables and whose pages hold three images. *)

Definition sample_config : Config :=
  {| OUTPUT_DIR := "/app/data/output"; TEMP_DIR := "/app/data/temp"; MAX_FILE_SIZE_MB := 100 |}.

(** A deployment that accepts no byte at all. *)
Definition zero_limit_config : Config :=
  {| OUTPUT_DIR := "/app/data/output"; TEMP_DIR := "/app/data/temp"; MAX_FILE_SIZE_MB := 0 |}.

Definition sample_os : os_env :=
  {| open_error := λ _, None; mkdir_error := λ _, None; unlink_error := λ _, None;
     glob := λ _ _ _, []; uuid4 := "j1"; time_start := 100; time_end := 250;
     now_isoformat := "2025-01-01T00:00:00" |}.

Definition sample_document : Docling.DoclingDocument :=
  {| Docling.name := "report";
     Docling.texts := [ {| Docling.label := "Section_Header" |};
                        {| Docling.label := "text" |};
                        {| Docling.label := "Sub-HEADING" |} ];
     Docling.tables := [ {| Docling.export_to_dataframe := {| Docling.to_csv := "a,b" |} |};
                         {| Docling.export_to_dataframe := {| Docling.to_csv := "c" |} |} ];
     Docling.pictures := [Docling.Picture];
     Docling.export_to_markdown := "# report" |}.

Definition sample_image (xref : nat) : Fitz.base_image :=
  {| Fitz.image := [x89; x50]; Fitz.ext := if (xref =? 9)%nat then "jpeg" else "png" |}.

Definition sample_pdf : Fitz.Document :=
  {| Fitz.get_images := [[7%nat; 8%nat]; []; [9%nat]];
     Fitz.extract_image := λ xref, Ok (sample_image xref) |}.

Definition sample_engines : engines :=
  {| convert := λ _, Ok {| Docling.document := sample_document |};
     fitz_open := λ _, Ok sample_pdf |}.

(** Engines whose converter rejects every document. *)
Definition rejecting_engines : engines :=
  {| convert := λ _, Raise (EngineError "not a PDF");
     fitz_open := λ _, Ok sample_pdf |}.

Definition sample_upload : UploadFile :=
  {| filename := "report.pdf"; stream := [x25; x50; x44; x46] |}.

Definition empty_world : world := World ∅ ∅ [].

(** The analyzer as [DocumentAnalyzer(pdf_path)] builds it. *)
Definition new_analyzer (pdf_path : string) : DocumentAnalyzer :=
  {| pdf_path := pdf_path; result := None; doc := None |}.

(** The statistics of a document, as [_get_statistics] lays them out. *)
Definition document_statistics (d : Docling.DoclingDocument) : list (string * stat_value) :=
  [ ("Document Name", VStr (Docling.name d));
    ("Total Text Elements", VInt (Z.of_nat (length (Docling.texts d))));
    ("Total Headings", VInt (Z.of_nat (length (List.filter is_heading (Docling.texts d)))));
    ("Total Tables", VInt (Z.of_nat (length (Docling.tables d))));
    ("Total Pictures", VInt (Z.of_nat (length (Docling.pictures d)))) ].

(** The world after a run of [analyze] in which no call fails: the tables,
    the images, the markdown and the summary, in that order. *)
Definition analyzed (os : os_env) (pdf : string) (r : Docling.ConversionResult)
    (images : list (list Fitz.base_image)) (w : world) : world :=
  let d := Docling.document r in
  let stem := Path.stem pdf in
  written [("output" // (stem +:+ "_summary.json"),
            JsonReport (now_isoformat os) (document_statistics d))]
    (made_dir "output"
       (written [("output" // (stem +:+ ".md"), Text (Docling.export_to_markdown d))]
          (made_dir "output"
             (written (image_writes pdf images)
                (logged (EvFitzOpen pdf)
                   (made_dir ("output" // (stem +:+ "_images"))
                      (made_dir "output"
                         (written (table_writes pdf (Docling.tables d))
                            (made_dir "output"
                               (logged (EvConvert pdf) w)))))))))).

(** ** Proof automation *)

(** Closes [c ∉ chars s] for a character [c] and a string literal [s]. *)
Ltac no_slash :=
  cbn [String.list_ascii_of_string];
  rewrite ?elem_of_cons, elem_of_nil; intuition discriminate.

(** ** Vocabulary of the further properties *)

(** The event of a whole-file write. *)
Definition write_event (pc : string * content) : event := EvWriteFile pc.1 pc.2.

(** The files a run of [analyze] writes when no call fails, in the order of
    the writes: the tables, the images, the markdown, the summary. *)
Definition pipeline_writes (os : os_env) (pdf : string) (r : Docling.ConversionResult)
    (images : list (list Fitz.base_image)) : list (string * content) :=
  table_writes pdf (Docling.tables (Docling.document r))
  ++ image_writes pdf images
  ++ [("output" // (Path.stem pdf +:+ ".md"),
       Text (Docling.export_to_markdown (Docling.document r)));
      ("output" // (Path.stem pdf +:+ "_summary.json"),
       JsonReport (now_isoformat os) (document_statistics (Docling.document r)))].

(** A path below the relative directory [output]. *)
Definition under_output (path : string) : Prop := ∃ rest, path = "output/" +:+ rest.

(** A call on the temp file or the output directory of a job. *)
Definition job_event (temp_path job_output_dir : string) (e : event) : Prop :=
  e = EvOpen temp_path ∨ (∃ chunk, e = EvAppend temp_path chunk)
  ∨ e = EvMkdir job_output_dir ∨ e = EvUnlink temp_path.

(** [w'] differs from [w] at most by the temp file, the output directory with
    its ancestors, and calls on the two. *)
Definition job_footprint (temp_path job_output_dir : string) (w w' : world) : Prop :=
  (∀ path, path ≠ temp_path → files w' !! path = files w !! path)
  ∧ dirs w ⊆ dirs w'
  ∧ dirs w' ⊆ list_to_set (job_output_dir :: Path.parents job_output_dir) ∪ dirs w
  ∧ ∃ evs, trace w' = trace w ++ evs ∧ Forall (job_event temp_path job_output_dir) evs.

(** Sample inputs of the further properties. *)

(** An operating system on which every [mkdir] fails. *)
Definition no_mkdir_os : os_env :=
  {| open_error := λ _, None; mkdir_error := λ _, Some "Permission denied";
     unlink_error := λ _, None; glob := λ _ _ _, []; uuid4 := "j1";
     time_start := 100; time_end := 250; now_isoformat := "2025-01-01T00:00:00" |}.

(** Engines whose PDF reader cannot open the file. *)
Definition unreadable_engines : engines :=
  {| convert := λ _, Ok {| Docling.document := sample_document |};
     fitz_open := λ _, Raise (EngineError "cannot open") |}.

(** A PDF whose image 8 cannot be extracted. *)
Definition damaged_pdf : Fitz.Document :=
  {| Fitz.get_images := [[7%nat; 8%nat]; []; [9%nat]];
     Fitz.extract_image := λ xref,
       if (xref =? 8)%nat then Raise (EngineError "bad xref") else Ok (sample_image xref) |}.

Definition damaged_engines : engines :=
  {| convert := λ _, Ok {| Docling.document := sample_document |};
     fitz_open := λ _, Ok damaged_pdf |}.

(** A world in which the two directories of [sample_config] exist. *)
Definition ready_world : world :=
  World ∅ ({["/app/data/temp"]} ∪ ({["/app/data/output"]} ∪ ∅)) [].

(** ** The library functions on sample inputs *)

Example stem_main : Path.stem "./data/Managerial-economics.pdf" = "Managerial-economics".
Proof. reflexivity. Qed.
Example stem_two_suffixes : Path.stem "/tmp/j_a.tar.PDF" = "j_a.tar".
Proof. reflexivity. Qed.
Example stem_dotfile : Path.stem "/tmp/.pdf" = ".pdf".
Proof. reflexivity. Qed.
Example endswith_pdf : PyStr.endswith (PyStr.lower "Report.PdF") ".pdf" = true.
Proof. reflexivity. Qed.
Example endswith_txt : PyStr.endswith (PyStr.lower "notes.txt") ".pdf" = false.
Proof. reflexivity. Qed.
Example contains_heading : PyStr.contains "heading" (PyStr.lower "Sub_Heading_1") = true.
Proof. reflexivity. Qed.
Example str_of_nat_12 : PyStr.str_of_nat 12 = "12".
Proof. reflexivity. Qed.
Example parents_absolute :
  Path.parents "/app/data/output/j1" = ["/app/data/output"; "/app/data"; "/app"; "/"].
Proof. reflexivity. Qed.
Example parents_relative : Path.parents "output/x" = ["output"; "."].
Proof. reflexivity. Qed.
Example parents_root : Path.parents "/" = [].
Proof. reflexivity. Qed.

(** ** Strings and paths *)

Section StringFacts.
Import PyStr.

Lemma chars_app (a b : string) : chars (a +:+ b) = chars a ++ chars b.
Proof. induction a as [|c a IH]; simpl; [done|]. by rewrite <- IH. Qed.

Lemma of_chars_app (a b : list ascii) : of_chars (a ++ b) = of_chars a +:+ of_chars b.
Proof. induction a as [|c a IH]; simpl; [done|]. by rewrite IH. Qed.

Lemma chars_inj (a b : string) : chars a = chars b → a = b.
Proof.
  intros H. rewrite <- (String.string_of_list_ascii_of_string a),
    <- (String.string_of_list_ascii_of_string b). by rewrite H.
Qed.

Lemma string_app_assoc (a b c : string) : (a +:+ b) +:+ c = a +:+ (b +:+ c).
Proof. apply chars_inj. by rewrite !chars_app, app_assoc. Qed.

Lemma chars_lower s : chars (lower s) = ascii_lower <$> chars s.
Proof. unfold lower. apply String.list_ascii_of_string_of_list_ascii. Qed.

Lemma lower_app a b : lower (a +:+ b) = lower a +:+ lower b.
Proof. apply chars_inj. rewrite chars_app, !chars_lower, chars_app. apply fmap_app. Qed.

(** No upper-case letter lowers to a dot: only a dot does. *)
Lemma ascii_lower_dot c : ascii_lower c = "."%char → c = "."%char.
Proof. destruct c as [[] [] [] [] [] [] [] []]; vm_compute; congruence. Qed.

Lemma endswith_iff s suffix : endswith s suffix = true ↔ ∃ p, s = p +:+ suffix.
Proof.
  unfold endswith. rewrite bool_decide_eq_true. split.
  - intros [k Hk]. exists (of_chars k). apply chars_inj.
    by rewrite chars_app, String.list_ascii_of_string_of_list_ascii.
  - intros [p ->]. exists (chars p). apply chars_app.
Qed.

(** A name accepted by the extension test splits into a base and a suffix
    that lowers to [".pdf"]. *)
Lemma endswith_lower_split f suffix :
  endswith (lower f) suffix = true →
  ∃ base tail, f = base +:+ tail ∧ lower tail = suffix.
Proof.
  intros [p Hp]%endswith_iff.
  assert (ascii_lower <$> chars f = chars p ++ chars suffix) as H.
  { by rewrite <- chars_lower, Hp, chars_app. }
  apply fmap_app_inv in H as (l1 & l2 & H1 & H2 & Hf).
  exists (of_chars l1), (of_chars l2). split.
  - apply chars_inj. by rewrite chars_app, !String.list_ascii_of_string_of_list_ascii.
  - apply chars_inj. by rewrite chars_lower, String.list_ascii_of_string_of_list_ascii.
Qed.

Lemma contains_chars_iff needle s :
  contains_chars needle s = true ↔ ∃ a b, s = a ++ needle ++ b.
Proof.
  induction s as [|c s IH]; simpl.
  - rewrite orb_false_r, bool_decide_eq_true. split.
    + intros [k Hk]. by exists [], k.
    + intros (a & b & H). symmetry in H.
      apply app_eq_nil in H as [-> H]. apply app_eq_nil in H as [-> _]. by exists [].
  - rewrite orb_true_iff, bool_decide_eq_true, IH. split.
    + intros [[k Hk] | (a & b & ->)]; [by exists [], k | by exists (c :: a), b].
    + intros ([|c' a] & b & H); simpl in H.
      * left. by exists b.
      * right. injection H as -> ->. by exists a, b.
Qed.

Lemma contains_iff needle s :
  contains needle s = true ↔ ∃ a b, s = a +:+ needle +:+ b.
Proof.
  unfold contains. rewrite contains_chars_iff. split.
  - intros (a & b & H). exists (of_chars a), (of_chars b). apply chars_inj.
    by rewrite !chars_app, !String.list_ascii_of_string_of_list_ascii.
  - intros (a & b & ->). exists (chars a), (chars b). by rewrite !chars_app.
Qed.

Lemma rfind_None c s : rfind c s = None ↔ c ∉ s.
Proof.
  induction s as [|a s IH]; simpl.
  - split; [intros _; apply not_elem_of_nil | done].
  - destruct (rfind c s) as [i|] eqn:E.
    + split; [done|]. intros Hn. exfalso. apply Hn. right.
      destruct (decide (c ∈ s)) as [|Hc]; [done|]. apply IH in Hc. done.
    + destruct (Ascii.eqb_spec a c) as [->|Hne].
      * split; [done|]. intros Hn. exfalso. apply Hn. left.
      * split; [|done]. intros _. rewrite not_elem_of_cons. split; [done|]. by apply IH.
Qed.

Lemma rfind_last c p e : c ∉ e → rfind c (p ++ c :: e) = Some (length p).
Proof.
  intros He. induction p as [|a p IH]; simpl.
  - apply rfind_None in He. rewrite He. by rewrite Ascii.eqb_refl.
  - by rewrite IH.
Qed.

Lemma name_join dir x : "/"%char ∉ chars x → Path.name (dir // x) = x.
Proof.
  intros Hx. unfold Path.name, Path.join. rewrite !chars_app. simpl.
  rewrite rfind_last by done.
  rewrite cons_middle, app_assoc.
  rewrite drop_app_length' by (rewrite length_app; simpl; lia).
  apply String.string_of_list_ascii_of_string.
Qed.

(** The stem of [base.e] is [base] when [e] is a non-empty suffix without a
    dot and [base] is not empty. *)
Lemma stem_join dir base e :
  "/"%char ∉ chars base → "/"%char ∉ chars e → "."%char ∉ chars e →
  base ≠ "" → e ≠ "" →
  Path.stem (dir // (base +:+ "." +:+ e)) = base.
Proof.
  intros Hb He Hd Hbn Hen. unfold Path.stem.
  rewrite name_join.
  2:{ rewrite !chars_app. simpl. rewrite elem_of_app, elem_of_cons. intros [?|[?|?]]; done. }
  rewrite !chars_app. simpl. rewrite rfind_last by done.
  assert (0 < length (chars base))%nat.
  { destruct base; [done | simpl; lia]. }
  assert (0 < length (chars e))%nat.
  { destruct e; [done | simpl; lia]. }
  rewrite bool_decide_true by (rewrite length_app; simpl; lia).
  rewrite take_app_length. apply String.string_of_list_ascii_of_string.
Qed.

(** A four-character suffix that lowers to [".pdf"] is a dot and three
    characters that are neither a dot nor a slash. *)
Lemma pdf_suffix_shape tail :
  lower tail = ".pdf" →
  ∃ e, tail = "." +:+ e ∧ e ≠ "" ∧ ("."%char ∉ chars e) ∧ ("/"%char ∉ chars e).
Proof.
  intros H. apply (f_equal chars) in H. rewrite chars_lower in H. simpl in H.
  destruct (chars tail) as [|c1 [|c2 [|c3 [|c4 [|c5 l]]]]] eqn:E; simplify_eq/=.
  apply ascii_lower_dot in H. subst c1.
  exists (of_chars [c2; c3; c4]). split_and!.
  - apply chars_inj. rewrite E. done.
  - done.
  - simpl. rewrite !elem_of_cons, elem_of_nil.
    intros [<-|[<-|[<-|[]]]]; vm_compute in H0, H1, H2; congruence.
  - simpl. rewrite !elem_of_cons, elem_of_nil.
    intros [<-|[<-|[<-|[]]]]; vm_compute in H0, H1, H2; congruence.
Qed.

(** Printing a natural number is injective, and prints digits only. *)
Lemma str_of_nat_inj n m : str_of_nat n = str_of_nat m → n = m.
Proof.
  unfold str_of_nat. intros H.
  apply DecimalNat.Unsigned.to_uint_inj.
  apply (f_equal NilEmpty.uint_of_string) in H. rewrite !NilEmpty.usu in H. congruence.
Qed.

Lemma string_of_uint_digits d : Forall (λ c, is_digit c = true) (chars (NilEmpty.string_of_uint d)).
Proof. induction d; simpl; constructor; done. Qed.

Lemma str_of_nat_digits n : Forall (λ c, is_digit c = true) (chars (str_of_nat n)).
Proof. apply string_of_uint_digits. Qed.

(** A run of digits is delimited by the first character that is not one. *)
Lemma digits_delimited (ds ds' : list ascii) c c' r r' :
  Forall (λ c, is_digit c = true) ds → Forall (λ c, is_digit c = true) ds' →
  is_digit c = false → is_digit c' = false →
  ds ++ c :: r = ds' ++ c' :: r' → ds = ds' ∧ r = r'.
Proof.
  intros Hd. revert ds'. induction Hd as [|a ds Ha Hd IH]; intros ds' Hd' Hc Hc' E.
  - destruct Hd' as [|a' ds' Ha' Hd']; simplify_eq/=; [done | congruence].
  - destruct Hd' as [|a' ds' Ha' Hd']; simplify_eq/=; [congruence|].
    destruct (IH ds' Hd' Hc Hc' H0) as [-> ->]. done.
Qed.

Lemma rfind_lt c s i : rfind c s = Some i → (i < length s)%nat.
Proof.
  revert i. induction s as [|a s IH]; intros i; simpl; [done|].
  destruct (rfind c s) as [j|].
  - intros [= <-]. specialize (IH j eq_refl). lia.
  - destruct (Ascii.eqb a c); [|done]. intros [= <-]. lia.
Qed.

Lemma parents_from_root fuel : Path.parents_from fuel "/" = [].
Proof. by destruct fuel. Qed.

Lemma parents_from_dot fuel : Path.parents_from fuel "." = [].
Proof. by destruct fuel. Qed.

(** The chain of parents does not depend on the fuel, once above the length
    of the path. *)
Lemma parents_from_fuel fuel1 fuel2 p :
  (length (chars p) < fuel1)%nat → (length (chars p) < fuel2)%nat →
  Path.parents_from fuel1 p = Path.parents_from fuel2 p.
Proof.
  revert fuel2 p. induction fuel1 as [|fuel1 IH]; intros fuel2 p H1 H2; [lia|].
  destruct fuel2 as [|fuel2]; [lia|]. cbn [Path.parents_from]. cbv zeta.
  case_bool_decide as Hfix; [done|]. f_equal.
  revert Hfix. unfold Path.parent.
  destruct (rfind "/"%char (chars p)) as [[|i]|] eqn:Hr; intros Hfix.
  - by rewrite !parents_from_root.
  - apply rfind_lt in Hr.
    apply IH; unfold chars, of_chars;
      rewrite String.list_ascii_of_string_of_list_ascii, length_take; fold (chars p); lia.
  - by rewrite !parents_from_dot.
Qed.

Lemma last_cons_default {A} (a d : A) (l : list A) : List.last (a :: l) d = List.last l a.
Proof.
  revert a d. induction l as [|b l IH]; intros a d; [done|].
  change (List.last (a :: b :: l) d) with (List.last (b :: l) d).
  by rewrite !(IH b).
Qed.

(** The chain is closed: it ends at a path that is its own parent. *)
Lemma parents_end p :
  Path.parent (List.last (Path.parents p) p) = List.last (Path.parents p) p.
Proof.
  unfold Path.parents.
  assert (∀ fuel q, (length (chars q) < fuel)%nat →
            Path.parent (List.last (Path.parents_from fuel q) q)
            = List.last (Path.parents_from fuel q) q) as H; [|apply H; lia].
  induction fuel as [|fuel IH]; intros q Hq; [lia|].
  cbn [Path.parents_from]. cbv zeta. case_bool_decide as Hfix; [done|].
  rewrite last_cons_default.
  assert (Path.parent q = "/" ∨ Path.parent q = "."
          ∨ (length (chars (Path.parent q)) < fuel)%nat) as [->|[->|Hlt]].
  { unfold Path.parent.
    destruct (rfind "/"%char (chars q)) as [[|i]|] eqn:Hr; [by left | | by right; left].
    do 2 right. apply rfind_lt in Hr. unfold chars, of_chars.
    rewrite String.list_ascii_of_string_of_list_ascii, length_take. fold (chars q). lia. }
  - by rewrite parents_from_root.
  - by rewrite parents_from_dot.
  - by apply IH.
Qed.

End StringFacts.

(** ** Running the primitives *)

Section MonadFacts.
Context (os : os_env).

Lemma bind_run {A B} (m : M A) (k : A → M B) w :
  (m ≫= k) w = match m w with
               | (Ok a, w') => k a w'
               | (Raise e, w') => (Raise e, w')
               end.
Proof. reflexivity. Qed.

Lemma mkdir_ok path w :
  mkdir_error os path = None → mkdir os path w = (Ok tt, made_dir path w).
Proof. intros H. unfold mkdir. rewrite bind_run. simpl. by rewrite H. Qed.

Lemma mkdir_fails path msg w :
  mkdir_error os path = Some msg →
  mkdir os path w = (Raise (OSError msg), World (files w) (dirs w) (trace w ++ [EvMkdir path])).
Proof. intros H. unfold mkdir. rewrite bind_run. simpl. by rewrite H. Qed.

Lemma mkdir_parents_ok path w :
  mkdir_error os path = None → mkdir_parents os path w = (Ok tt, made_dirs path w).
Proof. intros H. unfold mkdir_parents. rewrite bind_run. simpl. by rewrite H. Qed.

Lemma mkdir_parents_fails path msg w :
  mkdir_error os path = Some msg →
  mkdir_parents os path w
  = (Raise (OSError msg), World (files w) (dirs w) (trace w ++ [EvMkdir path])).
Proof. intros H. unfold mkdir_parents. rewrite bind_run. simpl. by rewrite H. Qed.

Lemma write_file_ok path c w :
  open_error os path = None → write_file os path c w = (Ok tt, written [(path, c)] w).
Proof. intros H. unfold write_file. rewrite bind_run. simpl. by rewrite H. Qed.

Lemma written_nil w : written [] w = World (files w) (dirs w) (trace w ++ []).
Proof. reflexivity. Qed.

Lemma written_app ws1 ws2 w : written (ws1 ++ ws2) w = written ws2 (written ws1 w).
Proof.
  unfold written. simpl. rewrite foldl_app, fmap_app, app_assoc. done.
Qed.

Lemma written_cons pc ws w : written (pc :: ws) w = written ws (written [pc] w).
Proof. apply (written_app [pc]). Qed.

Lemma written_dirs ws w : dirs (written ws w) = dirs w.
Proof. reflexivity. Qed.

Lemma world_eta w : World (files w) (dirs w) (trace w) = w.
Proof. by destruct w. Qed.

Lemma for_enumerate_ext {A} (body body' : nat → A → M unit) (l : list A) start w :
  (∀ i x w, body i x w = body' i x w) →
  for_enumerate start l body w = for_enumerate start l body' w.
Proof.
  intros H. revert start w. induction l as [|x l IH]; intros start w; simpl; [done|].
  rewrite !bind_run, H. destruct (body' start x w) as [[[]|e] w']; [apply IH | done].
Qed.

(** A loop in which every round succeeds and leaves a batch of writes. *)
Lemma for_enumerate_written {A} (body : nat → A → M unit)
    (g : nat → A → list (string * content)) (l : list A) start w :
  (∀ i x w, body i x w = (Ok tt, written (g i x) w)) →
  for_enumerate start l body w
  = (Ok tt, written (mjoin (imap (λ i, g (start + i)%nat) l)) w).
Proof.
  intros Hbody. revert start w. induction l as [|x l IH]; intros start w.
  - simpl. unfold mret, M_ret, ret. by rewrite written_nil, app_nil_r, world_eta.
  - rewrite imap_cons. cbn [mjoin list_join for_enumerate].
    rewrite written_app, Nat.add_0_r, bind_run, Hbody, IH.
    do 3 f_equal. apply imap_ext. intros i y _. simpl. f_equal. lia.
Qed.

(** A loop whose body is one successful write per element. *)
Lemma for_enumerate_writes {A} (f : nat → A → string * content) (l : list A) start w :
  (∀ path, open_error os path = None) →
  for_enumerate start l (λ i x, write_file os (f i x).1 (f i x).2) w
  = (Ok tt, written (imap (λ i, f (start + i)%nat) l) w).
Proof.
  intros Hopen.
  rewrite (for_enumerate_written _ (λ i x, [f i x])).
  - do 2 f_equal. induction l as [|x l IH] in start |- *; [done|].
    rewrite !imap_cons. simpl. f_equal.
    etrans; [|etrans; [apply (IH (S start))|]]; [f_equal|]; apply imap_ext; intros i y _; simpl;
      repeat f_equal; lia.
  - intros i x w'. rewrite write_file_ok by done. by rewrite <- surjective_pairing.
Qed.

End MonadFacts.

(** ** The analyzer: statistics and exporters *)

Section AnalyzerFacts.
Import PyStr.

Lemma contains_lower_iff needle label :
  contains needle (lower label) = true ↔ contains_ci needle label.
Proof.
  rewrite contains_iff. unfold contains_ci. split.
  - intros (a & b & H).
    assert (ascii_lower <$> chars label = chars a ++ chars needle ++ chars b) as Hc.
    { by rewrite <- chars_lower, H, !chars_app. }
    apply fmap_app_inv in Hc as (l1 & l23 & H1 & H23 & Hl).
    symmetry in H23. apply fmap_app_inv in H23 as (l2 & l3 & H2 & H3 & ->).
    exists (of_chars l1), (of_chars l2), (of_chars l3). split.
    + apply chars_inj. by rewrite !chars_app, !String.list_ascii_of_string_of_list_ascii.
    + apply chars_inj. by rewrite chars_lower, String.list_ascii_of_string_of_list_ascii.
  - intros (pre & mid & post & -> & <-).
    exists (lower pre), (lower post). by rewrite !lower_app.
Qed.

Lemma table_csv_path_inj dir pdf i j :
  table_csv_path dir pdf i = table_csv_path dir pdf j → i = j.
Proof.
  unfold table_csv_path, Path.join. intros H.
  apply (f_equal chars) in H. rewrite !chars_app in H.
  do 4 apply app_inv_head in H. apply app_inv_tail in H.
  apply chars_inj, str_of_nat_inj in H. lia.
Qed.

Lemma table_writes_paths pdf tables :
  (table_writes pdf tables).*1 = imap (λ i _, table_csv_path "output" pdf i) tables.
Proof. unfold table_writes. rewrite fmap_imap. by apply imap_ext. Qed.

Lemma table_writes_NoDup pdf tables : NoDup (table_writes pdf tables).*1.
Proof.
  rewrite table_writes_paths. apply NoDup_alt. intros i j path Hi Hj.
  apply list_lookup_imap_Some in Hi as (_ & _ & ->).
  apply list_lookup_imap_Some in Hj as (_ & _ & Hj).
  by apply table_csv_path_inj in Hj.
Qed.

Lemma image_path_inj dir pn ii e pn' ii' e' :
  image_path dir pn ii e = image_path dir pn' ii' e' → pn = pn' ∧ ii = ii'.
Proof.
  unfold image_path, Path.join. intros H.
  apply (f_equal chars) in H. rewrite !chars_app in H.
  do 3 apply app_inv_head in H.
  change (chars "_img") with ("_"%char :: chars "img") in H. simpl in H.
  apply digits_delimited in H as [Hp H]; [|apply str_of_nat_digits..|done|done].
  injection H as H.
  change (chars ".") with ["."%char] in H.
  apply digits_delimited in H as [Hi _]; [|apply str_of_nat_digits..|done|done].
  apply chars_inj, str_of_nat_inj in Hp. apply chars_inj, str_of_nat_inj in Hi. lia.
Qed.

(** Doubly indexed lists whose entries determine their two indices have no
    duplicates. *)
Lemma NoDup_concat_imap {A B} (h : nat → nat → A → B) (ll : list (list A)) start :
  (∀ i j x i' j' x', h i j x = h i' j' x' → i = i' ∧ j = j') →
  NoDup (mjoin (imap (λ i l, imap (h (start + i)%nat) l) ll)).
Proof.
  intros Hh. revert start. induction ll as [|l ll IH]; intros start.
  - constructor.
  - rewrite imap_cons. cbn [mjoin list_join]. apply NoDup_app. split_and!.
    + apply NoDup_alt. intros j j' y Hj Hj'.
      apply list_lookup_imap_Some in Hj as (x & _ & ->).
      apply list_lookup_imap_Some in Hj' as (x' & _ & Hj').
      by apply Hh in Hj' as [_ ?].
    + intros y Hy Hy'.
      apply elem_of_lookup_imap in Hy as (j & x & -> & _).
      apply list_elem_of_join in Hy' as (l' & Hy' & Hl').
      apply elem_of_lookup_imap in Hl' as (i' & l'' & -> & _).
      apply elem_of_lookup_imap in Hy' as (j' & x' & Hy' & _).
      apply Hh in Hy' as [? _]. simpl in *. lia.
    + eapply eq_ind; [apply (IH (S start))|].
      f_equal. apply imap_ext. intros i y _. simpl. by rewrite Nat.add_succ_r.
Qed.

Lemma fst_join_imap {A} (f : nat → nat → A → string * content) (ll : list (list A)) :
  (mjoin (imap (λ pn l, imap (f pn) l) ll)).*1
  = mjoin (imap (λ pn l, imap (λ ii x, (f pn ii x).1) l) ll).
Proof.
  revert f. induction ll as [|l ll IH]; intros f; [done|].
  rewrite !imap_cons. cbn [mjoin list_join]. rewrite fmap_app, fmap_imap. f_equal.
  apply (IH (λ pn, f (S pn))).
Qed.

Lemma image_writes_NoDup pdf images : NoDup (image_writes pdf images).*1.
Proof.
  unfold image_writes.
  set (dir := "output" // (Path.stem pdf +:+ "_images")).
  rewrite (fst_join_imap (λ pn ii (img : Fitz.base_image), (_, _))). simpl.
  apply (NoDup_concat_imap
           (λ pn ii img, image_path dir pn ii (Fitz.ext img)) images 0).
  intros. by eapply image_path_inj.
Qed.

Lemma image_writes_length pdf images :
  length (image_writes pdf images) = sum_list (length <$> images).
Proof.
  unfold image_writes. rewrite length_join, fmap_imap. f_equal.
  rewrite <- imap_const. apply imap_ext. intros pn l _. simpl. apply length_imap.
Qed.

End AnalyzerFacts.

Section ExporterRuns.
Context (os : os_env) (ext : engines).

Lemma get_statistics_run (p : string) r d w :
  _get_statistics {| pdf_path := p; result := r; doc := Some d |} w
  = (Ok (document_statistics d), w).
Proof. reflexivity. Qed.

Lemma save_tables_run (p : string) r d w :
  mkdir_error os "output" = None →
  (∀ path, open_error os path = None) →
  _save_tables os {| pdf_path := p; result := r; doc := Some d |} w
  = (Ok tt, written (table_writes p (Docling.tables d)) (made_dir "output" w)).
Proof.
  intros Hmk Hopen. unfold _save_tables. simpl. rewrite bind_run, mkdir_ok by done.
  by rewrite (for_enumerate_writes os
    (λ i table, (table_csv_path "output" p i,
                 Text (Docling.to_csv (Docling.export_to_dataframe table))))) by done.
Qed.

Lemma image_writes_by_xref (p : string) (img : nat → Fitz.base_image) (pages : list (list nat)) :
  image_writes p ((λ page : list nat, img <$> page) <$> pages)
  = mjoin (imap (λ pn page,
      imap (λ ii xref,
              (image_path ("output" // (Path.stem p +:+ "_images")) pn ii (Fitz.ext (img xref)),
               Binary (Fitz.image (img xref)))) page) pages).
Proof.
  unfold image_writes. rewrite imap_fmap. f_equal.
  apply imap_ext. intros pn page _. simpl. by rewrite imap_fmap.
Qed.

Lemma save_images_run (p : string) r d (pdf : Fitz.Document) (img : nat → Fitz.base_image) w :
  (∀ path, mkdir_error os path = None) →
  (∀ path, open_error os path = None) →
  fitz_open ext p = Ok pdf →
  (∀ xref, Fitz.extract_image pdf xref = Ok (img xref)) →
  _save_images os ext {| pdf_path := p; result := r; doc := Some d |} w
  = (Ok tt,
     written (image_writes p ((λ page : list nat, img <$> page) <$> Fitz.get_images pdf))
       (logged (EvFitzOpen p)
          (made_dir ("output" // (Path.stem p +:+ "_images")) (made_dir "output" w)))).
Proof.
  intros Hmk Hopen Hpdf Himg. set (images_dir := "output" // (Path.stem p +:+ "_images")).
  unfold _save_images. simpl.
  rewrite bind_run, mkdir_ok by done. rewrite bind_run, mkdir_ok by done.
  rewrite bind_run. simpl. rewrite bind_run. unfold of_res at 1. rewrite Hpdf.
  rewrite (for_enumerate_written _ (λ pn page,
             imap (λ ii xref, (image_path images_dir pn ii (Fitz.ext (img xref)),
                               Binary (Fitz.image (img xref)))) page)).
  - by rewrite image_writes_by_xref.
  - intros pn page w0.
    rewrite (for_enumerate_ext _
      (λ ii xref, write_file os (image_path images_dir pn ii (Fitz.ext (img xref)))
                             (Binary (Fitz.image (img xref))))).
    + by rewrite (for_enumerate_writes os
        (λ ii xref, (image_path images_dir pn ii (Fitz.ext (img xref)),
                     Binary (Fitz.image (img xref))))) by done.
    + intros ii xref w1. rewrite bind_run. unfold of_res. by rewrite Himg.
Qed.

Lemma save_markdown_run (p : string) r d w :
  mkdir_error os "output" = None →
  (∀ path, open_error os path = None) →
  _save_markdown os {| pdf_path := p; result := Some r; doc := d |} w
  = (Ok tt, written [("output" // (Path.stem p +:+ ".md"),
                      Text (Docling.export_to_markdown (Docling.document r)))]
                    (made_dir "output" w)).
Proof.
  intros Hmk Hopen. unfold _save_markdown. simpl. rewrite bind_run, mkdir_ok by done.
  by rewrite write_file_ok by done.
Qed.

Lemma create_summary_report_run (self : DocumentAnalyzer) stats w :
  mkdir_error os "output" = None →
  (∀ path, open_error os path = None) →
  _create_summary_report os self stats w
  = (Ok tt, written [("output" // (Path.stem (pdf_path self) +:+ "_summary.json"),
                      JsonReport (now_isoformat os) stats)]
                    (made_dir "output" w)).
Proof.
  intros Hmk Hopen. unfold _create_summary_report. rewrite bind_run, mkdir_ok by done.
  by rewrite write_file_ok by done.
Qed.

(** A run of the whole pipeline in which no call fails. *)
Lemma analyze_run (self : DocumentAnalyzer) r (pdf : Fitz.Document)
    (img : nat → Fitz.base_image) w :
  (∀ path, mkdir_error os path = None) →
  (∀ path, open_error os path = None) →
  convert ext (pdf_path self) = Ok r →
  fitz_open ext (pdf_path self) = Ok pdf →
  (∀ xref, Fitz.extract_image pdf xref = Ok (img xref)) →
  analyze os ext self w
  = (Ok {| pdf_path := pdf_path self; result := Some r; doc := Some (Docling.document r) |},
     analyzed os (pdf_path self) r
       ((λ page : list nat, img <$> page) <$> Fitz.get_images pdf) w).
Proof.
  intros Hmk Hopen Hconv Hpdf Himg. unfold analyze.
  rewrite bind_run. simpl. rewrite bind_run. unfold of_res at 1. rewrite Hconv.
  rewrite bind_run, get_statistics_run.
  rewrite bind_run, save_tables_run by done.
  rewrite bind_run, (save_images_run _ _ _ pdf img) by done.
  rewrite bind_run, save_markdown_run by done.
  rewrite bind_run, create_summary_report_run by done.
  reflexivity.
Qed.

End ExporterRuns.

(** Files appear only where they are written. *)
Lemma written_dom ws w :
  dom (files (written ws w)) = list_to_set ws.*1 ∪ dom (files w).
Proof.
  revert w. induction ws as [|[path c] ws IH]; intros w.
  - simpl. by rewrite (left_id_L ∅ (∪)).
  - rewrite written_cons, IH. simpl. rewrite dom_insert_L.
    by rewrite (assoc_L (∪)), (comm_L (∪) _ {[path]}).
Qed.

Lemma table_writes_under_output pdf tables path :
  path ∈ (table_writes pdf tables).*1 → ∃ rest, path = "output/" +:+ rest.
Proof.
  intros (pc & -> & Hpc)%list_elem_of_fmap.
  apply elem_of_lookup_imap in Hpc as (i & table & -> & _). by eexists.
Qed.

Lemma image_writes_under_output pdf images path :
  path ∈ (image_writes pdf images).*1 → ∃ rest, path = "output/" +:+ rest.
Proof.
  intros (pc & -> & Hpc)%list_elem_of_fmap.
  apply list_elem_of_join in Hpc as (l & Hpc & Hl).
  apply elem_of_lookup_imap in Hl as (pn & page & -> & _).
  apply elem_of_lookup_imap in Hpc as (ii & img & -> & _).
  simpl. unfold Path.join. rewrite !string_app_assoc. by eexists.
Qed.

(** Every file the pipeline adds lies under the relative directory
    [output], whatever the path of the PDF. *)
Lemma analyzed_files_under_output os pdf r images w path :
  path ∈ dom (files (analyzed os pdf r images w)) →
  path ∈ dom (files w) ∨ ∃ rest, path = "output/" +:+ rest.
Proof.
  unfold analyzed. cbn zeta.
  repeat (rewrite written_dom; cbn [files made_dir logged]).
  rewrite !elem_of_union, !elem_of_list_to_set.
  intros [H|[H|[H|[H|H]]]].
  - apply list_elem_of_singleton in H. subst path. right. by eexists.
  - apply list_elem_of_singleton in H. subst path. right. by eexists.
  - right. by eapply image_writes_under_output.
  - right. by eapply table_writes_under_output.
  - by left.
Qed.

(** C7: for every document model the statistics collector returns exactly the
    five aggregates document name, number of text elements, number of
    headings, number of tables and number of pictures, touching neither the
    file system nor an engine; and a text element counts as a heading exactly
    when its label contains "heading" or "section_header" case-insensitively. *)
Theorem statistics_five_aggregates (p : string) r d w :
  _get_statistics {| pdf_path := p; result := r; doc := Some d |} w
  = (Ok [ ("Document Name", VStr (Docling.name d));
          ("Total Text Elements", VInt (Z.of_nat (length (Docling.texts d))));
          ("Total Headings",
           VInt (Z.of_nat (length (List.filter is_heading (Docling.texts d)))));
          ("Total Tables", VInt (Z.of_nat (length (Docling.tables d))));
          ("Total Pictures", VInt (Z.of_nat (length (Docling.pictures d)))) ],
     w)
  ∧ ∀ t, is_heading t = true ↔
         contains_ci "heading" (Docling.label t)
         ∨ contains_ci "section_header" (Docling.label t).
Proof.
  split; [reflexivity|].
  intros t. unfold is_heading. rewrite orb_true_iff, !contains_lower_iff. done.
Qed.

(** C8: for every document model the table exporter writes one CSV file per
    table, in document order, the [n]-th at [{stem}_table_{n}.csv] counting
    from 1, all at different paths; with no tables it writes no file and
    returns normally. *)
Theorem save_tables_one_csv_per_table os (p : string) r d w :
  mkdir_error os "output" = None →
  (∀ path, open_error os path = None) →
  let ws := table_writes p (Docling.tables d) in
  _save_tables os {| pdf_path := p; result := r; doc := Some d |} w
  = (Ok tt, written ws (made_dir "output" w))
  ∧ length ws = length (Docling.tables d)
  ∧ NoDup ws.*1
  ∧ (∀ i table, Docling.tables d !! i = Some table →
       ws !! i = Some ("output" // (Path.stem p +:+ "_table_" +:+ PyStr.str_of_nat (i + 1)
                                     +:+ ".csv"),
                       Text (Docling.to_csv (Docling.export_to_dataframe table))))
  ∧ (Docling.tables d = [] → ws = []).
Proof.
  intros Hmk Hopen ws. split_and!.
  - by apply save_tables_run.
  - apply length_imap.
  - apply table_writes_NoDup.
  - intros i table Hi. unfold ws, table_writes. rewrite list_lookup_imap, Hi. done.
  - intros H. unfold ws. by rewrite H.
Qed.

(** C9: the image exporter opens the PDF itself (whatever the document model
    is), and for the images the reader returns, page by page, writes one file
    per image at [images_dir/page{p}_img{i}.{ext}], pages in page order and
    images in reader order, both numbered from 1 and all at different paths;
    the images directory is created even when there is no image. *)
Theorem save_images_one_file_per_image os ext (p : string) r d (pdf : Fitz.Document)
    (img : nat → Fitz.base_image) w :
  (∀ path, mkdir_error os path = None) →
  (∀ path, open_error os path = None) →
  fitz_open ext p = Ok pdf →
  (∀ xref, Fitz.extract_image pdf xref = Ok (img xref)) →
  let images_dir := "output" // (Path.stem p +:+ "_images") in
  let ws := image_writes p ((λ page : list nat, img <$> page) <$> Fitz.get_images pdf) in
  let w' := written ws (logged (EvFitzOpen p) (made_dir images_dir (made_dir "output" w))) in
  _save_images os ext {| pdf_path := p; result := r; doc := Some d |} w = (Ok tt, w')
  ∧ images_dir ∈ dirs w'
  ∧ length ws = sum_list ((λ page : list nat, length page) <$> Fitz.get_images pdf)
  ∧ NoDup ws.*1
  ∧ (∀ pn page ii xref,
       Fitz.get_images pdf !! pn = Some page → page !! ii = Some xref →
       (images_dir // ("page" +:+ PyStr.str_of_nat (pn + 1) +:+ "_img"
                       +:+ PyStr.str_of_nat (ii + 1) +:+ "." +:+ Fitz.ext (img xref)),
        Binary (Fitz.image (img xref))) ∈ ws)
  ∧ (Forall (.= []) (Fitz.get_images pdf) → ws = [] ∧ files w' = files w).
Proof.
  intros Hmk Hopen Hpdf Himg images_dir ws w'.
  assert (ws = mjoin (imap (λ pn page,
            imap (λ ii xref, (image_path images_dir pn ii (Fitz.ext (img xref)),
                              Binary (Fitz.image (img xref)))) page)
            (Fitz.get_images pdf))) as Hws by apply image_writes_by_xref.
  split_and!.
  - by apply save_images_run.
  - unfold w'. rewrite written_dirs. simpl. set_solver.
  - unfold ws. rewrite image_writes_length. f_equal.
    rewrite <- list_fmap_compose. apply list_fmap_ext. intros _ l _. simpl. apply length_fmap.
  - apply image_writes_NoDup.
  - intros pn page ii xref Hpage Hxref. rewrite Hws.
    apply list_elem_of_join.
    exists (imap (λ ii xref, (image_path images_dir pn ii (Fitz.ext (img xref)),
                              Binary (Fitz.image (img xref)))) page).
    split; apply elem_of_lookup_imap; [by exists ii, xref | by exists pn, page].
  - intros Hempty.
    assert (ws = []) as E.
    { rewrite Hws. apply join_nil, Forall_forall. intros l Hl.
      apply elem_of_lookup_imap in Hl as (pn & page & -> & Hpage).
      eapply Forall_lookup in Hempty; [|done]. by rewrite Hempty. }
    split; [done|]. unfold w'. by rewrite E.
Qed.

(** ** The endpoint *)

Section ServerFacts.
Context (cfg : Config) (os : os_env) (ext : engines).

Lemma take_nil_inv {A} (n : nat) (l : list A) : (0 < n)%nat → take n l = [] → l = [].
Proof. destruct n, l; simpl; intros; [lia | lia | done | done]. Qed.

Lemma append_bytes_run path chunk old w :
  files w !! path = Some (Binary old) →
  append_bytes path chunk w
  = (Ok tt, World (<[path := Binary (old ++ chunk)]> (files w)) (dirs w)
                  (trace w ++ [EvAppend path chunk])).
Proof.
  intros H. unfold append_bytes, log_event, modify, set_files, logged. rewrite bind_run.
  cbn [files dirs trace]. by rewrite H.
Qed.

(** The upload loop: what it appends, and how it ends.  [sz] is the running
    count on entry and [old] the bytes already in the file. *)
Lemma save_chunks_spec temp_path fuel file sz w old :
  (length (stream file) < fuel)%nat →
  files w !! temp_path = Some (Binary old) →
  sz ≤ size_limit cfg →
  ∃ chunks,
    (save_chunks cfg fuel temp_path file sz w).2
    = World (<[temp_path := Binary (old ++ mjoin chunks)]> (files w)) (dirs w)
            (trace w ++ (EvAppend temp_path <$> chunks))
    ∧ mjoin chunks `prefix_of` stream file
    ∧ Forall (λ c, c ≠ [] ∧ Z.of_nat (length c) ≤ 8192) chunks
    ∧ sz + Z.of_nat (length (mjoin chunks)) ≤ size_limit cfg
    ∧ ((sz + Z.of_nat (length (stream file)) ≤ size_limit cfg
        ∧ (save_chunks cfg fuel temp_path file sz w).1 = Ok (sz + Z.of_nat (length (stream file)))
        ∧ mjoin chunks = stream file)
       ∨ (size_limit cfg < sz + Z.of_nat (length (stream file))
          ∧ (save_chunks cfg fuel temp_path file sz w).1 = Raise (too_large cfg)
          ∧ size_limit cfg < sz + Z.of_nat (length (mjoin chunks)) + 8192)).
Proof.
  revert file sz w old. induction fuel as [|fuel IH]; intros file sz w old Hfuel Hold Hsz; [lia|].
  cbn [save_chunks UploadFile_read].
  assert (Z.of_nat (Z.to_nat 8192) = 8192) as Hn by lia.
  revert Hn. generalize (Z.to_nat 8192) as n. intros n Hn.
  destruct (take n (stream file)) as [|b chunk] eqn:Hchunk.
  - apply take_nil_inv in Hchunk; [|lia]. exists []. rewrite Hchunk.
    change (mjoin []) with (@nil byte). cbn [fmap list_fmap length].
    rewrite !app_nil_r, insert_id by done. rewrite world_eta.
    split_and!; [done | by exists [] | done | lia |]. left.
    split_and!; [lia | unfold mret, M_ret, ret; cbn [fst]; f_equal; lia | done].
  - assert (0 < length (b :: chunk))%nat as Hpos by (cbn [length]; lia).
    revert Hpos Hchunk. generalize (b :: chunk) as c. intros c Hpos Hchunk.
    assert (Z.of_nat (length c) ≤ 8192) as Hlen.
    { rewrite <- Hchunk, length_take. lia. }
    assert (stream file = c ++ drop n (stream file)) as Hsplit.
    { by rewrite <- Hchunk, take_drop. }
    assert (length (stream file) = (length c + length (drop n (stream file)))%nat) as Hlens.
    { rewrite Hsplit at 1. by rewrite length_app. }
    destruct (sz + Z.of_nat (length c) >? size_limit cfg) eqn:Hover.
    + exists []. change (mjoin []) with (@nil byte). cbn [fmap list_fmap length snd fst].
      rewrite !app_nil_r, insert_id by done. rewrite world_eta.
      split_and!; [done | by eexists | done | lia |]. right.
      split_and!; [lia | done | lia].
    + rewrite !bind_run, !(append_bytes_run _ _ old) by done.
      set (w1 := World _ _ _).
      set (file' := {| filename := filename file; stream := drop n (stream file) |}).
      destruct (IH file' (sz + Z.of_nat (length c)) w1 (old ++ c))
        as (chunks & Hw & Hpre & Hall & Hbound & Hend).
      * cbn [stream file']. lia.
      * apply lookup_insert_eq.
      * lia.
      * exists (c :: chunks).
        change (mjoin (c :: chunks)) with (c ++ mjoin chunks).
        change (EvAppend temp_path <$> c :: chunks)
          with (EvAppend temp_path c :: (EvAppend temp_path <$> chunks)).
        subst file' w1. cbn [stream files dirs trace] in Hw, Hend, Hpre.
        rewrite Hw, insert_insert_eq, <- !app_assoc, !length_app.
        split_and!.
        -- done.
        -- rewrite Hsplit. by apply prefix_app.
        -- constructor; [|done]. split; [|done]. by destruct c; [cbn [length] in Hpos; lia|].
        -- lia.
        -- destruct Hend as [(H1 & H2 & H3) | (H1 & H2 & H3)].
           ++ left. split_and!; [lia | rewrite H2; f_equal; lia | by rewrite H3].
           ++ right. split_and!; [lia | done | lia].
Qed.

(** Fuel above the length of the stream is never used up: any two such
    amounts give the same run. *)
Lemma save_chunks_fuel temp_path fuel1 fuel2 file sz w :
  (length (stream file) < fuel1)%nat → (length (stream file) < fuel2)%nat →
  save_chunks cfg fuel1 temp_path file sz w = save_chunks cfg fuel2 temp_path file sz w.
Proof.
  revert fuel2 file sz w. induction fuel1 as [|fuel1 IH]; intros fuel2 file sz w H1 H2; [lia|].
  destruct fuel2 as [|fuel2]; [lia|].
  cbn [save_chunks UploadFile_read].
  destruct (take (Z.to_nat 8192) (stream file)) as [|b chunk] eqn:Hchunk; [done|].
  destruct (_ >? _); [done|].
  rewrite !bind_run. destruct (append_bytes _ _ w) as [[[]|e] w1]; [|done].
  assert (length (drop (Z.to_nat 8192) (stream file)) < length (stream file))%nat.
  { rewrite <- (take_drop (Z.to_nat 8192) (stream file)) at 2.
    rewrite Hchunk, length_app. simpl. lia. }
  apply IH; simpl; lia.
Qed.

Lemma open_wb_ok path w :
  open_error os path = None →
  open_wb os path w
  = (Ok tt, World (<[path := Binary []]> (files w)) (dirs w) (trace w ++ [EvOpen path])).
Proof. intros H. unfold open_wb. rewrite bind_run. simpl. by rewrite H. Qed.

Lemma open_wb_fails path msg w :
  open_error os path = Some msg →
  open_wb os path w = (Raise (OSError msg), logged (EvOpen path) w).
Proof. intros H. unfold open_wb. rewrite bind_run. simpl. by rewrite H. Qed.

Lemma cleanup_run temp_path w : cleanup os temp_path w = (Ok tt, cleaned os temp_path w).
Proof.
  unfold cleanup, cleaned. rewrite bind_run. unfold path_exists, gets.
  destruct (_ || _); [|done].
  unfold try_except, unlink. rewrite bind_run. simpl.
  destruct (unlink_error os temp_path); done.
Qed.

Lemma guarded_run job_id temp_path (body : M AnalysisResult) w :
  guarded os job_id temp_path body w
  = (reported os job_id (body w).1, cleaned os temp_path (body w).2).
Proof.
  unfold guarded, try_finally, try_except, on_exception.
  destruct (body w) as [[a|e] w1]; simpl.
  - by rewrite cleanup_run.
  - destruct (is_HTTPException e); simpl; by rewrite cleanup_run.
Qed.

Lemma analyze_document_accepted file w :
  PyStr.endswith (PyStr.lower (filename file)) ".pdf" = true →
  analyze_document cfg os ext file w
  = guarded os (uuid4 os) (temp_path_of cfg (uuid4 os) file)
      (try_block cfg os ext (uuid4 os) (temp_path_of cfg (uuid4 os) file) file) w.
Proof. intros H. unfold analyze_document. by rewrite H. Qed.

(** The finally clause leaves no file at the temp path when [unlink] works. *)
Lemma cleaned_no_file temp_path w :
  unlink_error os temp_path = None → files (cleaned os temp_path w) !! temp_path = None.
Proof.
  intros H. unfold cleaned. rewrite H.
  destruct (bool_decide (is_Some (files w !! temp_path))) eqn:E; simpl.
  - apply lookup_delete_eq.
  - apply bool_decide_eq_false in E. destruct (bool_decide _); simpl.
    + apply lookup_delete_eq.
    + by apply eq_None_not_Some.
Qed.

(** The call [DocumentAnalyzer(str(temp_path), output_dir=job_output_dir)]
    never returns an analyzer. *)
Lemma constructor_rejects_output_dir temp_path job_output_dir w :
  DocumentAnalyzer_new [temp_path] [("output_dir", job_output_dir)] w
  = (Raise (TypeError
       "DocumentAnalyzer.__init__() got an unexpected keyword argument 'output_dir'"), w).
Proof. reflexivity. Qed.

End ServerFacts.

(** ** The upload loop, the footprint of a request and the service functions *)

Section UploadFacts.
Context (cfg : Config) (os : os_env) (ext : engines).

(** The upload loop on a stream that fits: every byte is appended, in chunks
    that are full except possibly the last. *)
Lemma save_chunks_within temp_path fuel file sz w old :
  (length (stream file) < fuel)%nat →
  files w !! temp_path = Some (Binary old) →
  sz + Z.of_nat (length (stream file)) ≤ size_limit cfg →
  ∃ chunks,
    save_chunks cfg fuel temp_path file sz w
    = (Ok (sz + Z.of_nat (length (stream file))),
       World (<[temp_path := Binary (old ++ stream file)]> (files w)) (dirs w)
             (trace w ++ (EvAppend temp_path <$> chunks)))
    ∧ mjoin chunks = stream file
    ∧ Forall (λ c, c ≠ []) chunks
    ∧ (∀ i c, chunks !! i = Some c →
         Z.of_nat (length c) ≤ 8192
         ∧ ((S i < length chunks)%nat → Z.of_nat (length c) = 8192)).
Proof.
  revert file sz w old. induction fuel as [|fuel IH]; intros file sz w old Hfuel Hold Hfit;
    [lia|].
  cbn [save_chunks UploadFile_read].
  assert (Z.of_nat (Z.to_nat 8192) = 8192) as Hn by lia.
  revert Hn. generalize (Z.to_nat 8192) as n. intros n Hn.
  destruct (take n (stream file)) as [|b chunk] eqn:Hchunk.
  - apply take_nil_inv in Hchunk; [|lia]. exists []. rewrite Hchunk.
    change (mjoin []) with (@nil byte). cbn [fmap list_fmap length].
    rewrite !app_nil_r, insert_id by done. rewrite world_eta.
    unfold mret, M_ret, ret. split_and!; [do 2 f_equal; lia | done | done |].
    intros i c Hi. by rewrite lookup_nil in Hi.
  - assert (b :: chunk ≠ []) as Hne by done.
    revert Hne Hchunk. generalize (b :: chunk) as c. intros c Hne Hchunk.
    assert (stream file = c ++ drop n (stream file)) as Hsplit.
    { by rewrite <- Hchunk, take_drop. }
    assert (length (stream file) = (length c + length (drop n (stream file)))%nat) as Hlens.
    { rewrite Hsplit at 1. by rewrite length_app. }
    assert (Z.of_nat (length c) ≤ 8192) as Hlen.
    { rewrite <- Hchunk, length_take. lia. }
    assert (0 < length c)%nat as Hpos by (destruct c; [done | simpl; lia]).
    destruct c as [|b' c'] eqn:Hc; [done|]. rewrite <- Hc in *. clear Hc b' c'.
    destruct (sz + Z.of_nat (length c) >? size_limit cfg) eqn:Hover; [lia|].
    rewrite bind_run, (append_bytes_run _ _ old) by done.
    set (w1 := World _ _ _).
    set (file' := {| filename := filename file; stream := drop n (stream file) |}).
    destruct (IH file' (sz + Z.of_nat (length c)) w1 (old ++ c))
      as (chunks & Hrun & Hjoin & Hall & Hsizes).
    + cbn [stream file']. lia.
    + apply lookup_insert_eq.
    + cbn [stream file']. lia.
    + exists (c :: chunks).
      change (mjoin (c :: chunks)) with (c ++ mjoin chunks).
      change (EvAppend temp_path <$> c :: chunks)
        with (EvAppend temp_path c :: (EvAppend temp_path <$> chunks)).
      rewrite Hrun. subst w1 file'. cbn [stream files dirs trace] in *.
      rewrite insert_insert_eq, <- !app_assoc, Hjoin, <- Hsplit.
      split_and!.
      * do 2 f_equal. lia.
      * done.
      * by constructor.
      * intros [|i] c0 Hi.
        -- injection Hi as <-. split; [done|]. intros Hmore.
           destruct chunks as [|c1 chunks1]; [simpl in Hmore; lia|].
           apply Forall_cons in Hall as [Hc1 _].
           assert (0 < length (drop n (stream file)))%nat.
           { rewrite <- Hjoin. change (mjoin (c1 :: chunks1)) with (c1 ++ mjoin chunks1).
             rewrite length_app. destruct c1; [done | simpl; lia]. }
           rewrite length_drop in *. rewrite <- Hchunk, length_take. lia.
        -- destruct (Hsizes i c0 Hi) as [H1 H2]. split; [done|].
           intros Hmore. apply H2. simpl in Hmore. lia.
Qed.

(** The upload loop raises nothing but the 413. *)
Lemma save_chunks_outcome temp_path fuel file sz w :
  (∃ n, (save_chunks cfg fuel temp_path file sz w).1 = Ok n)
  ∨ (save_chunks cfg fuel temp_path file sz w).1 = Raise (too_large cfg).
Proof.
  revert file sz w. induction fuel as [|fuel IH]; intros file sz w.
  - left. by eexists.
  - cbn [save_chunks UploadFile_read].
    destruct (take _ (stream file)) as [|b chunk]; [left; by eexists|].
    destruct (_ >? _); [by right|].
    rewrite bind_run. destruct (append_bytes _ _ w) as [[[]|e] w1] eqn:Happ.
    + apply IH.
    + unfold append_bytes in Happ. rewrite bind_run in Happ. simpl in Happ. discriminate.
Qed.

End UploadFacts.

Section FootprintFacts.
Context (cfg : Config) (os : os_env) (ext : engines) (temp_path job_output_dir : string).

Lemma footprint_refl w : job_footprint temp_path job_output_dir w w.
Proof.
  split_and!; [done | done | apply union_subseteq_r |].
  exists []. by rewrite app_nil_r.
Qed.

Lemma footprint_trans w1 w2 w3 :
  job_footprint temp_path job_output_dir w1 w2 →
  job_footprint temp_path job_output_dir w2 w3 →
  job_footprint temp_path job_output_dir w1 w3.
Proof.
  intros (Hf1 & Hd1 & Hu1 & evs1 & Ht1 & He1) (Hf2 & Hd2 & Hu2 & evs2 & Ht2 & He2).
  split_and!.
  - intros path Hp. by rewrite Hf2, Hf1.
  - by etrans.
  - intros d Hd. apply Hu2 in Hd. apply elem_of_union in Hd as [Hd|Hd].
    + by apply elem_of_union_l.
    + by apply Hu1.
  - exists (evs1 ++ evs2). rewrite Ht2, Ht1, app_assoc. split; [done|].
    by apply Forall_app.
Qed.

(** One step on the temp file or the directory of the job. *)
Lemma footprint_step w fs ds e :
  (∀ path, path ≠ temp_path → fs !! path = files w !! path) →
  (ds = dirs w
   ∨ ds = list_to_set (job_output_dir :: Path.parents job_output_dir) ∪ dirs w) →
  job_event temp_path job_output_dir e →
  job_footprint temp_path job_output_dir w (World fs ds (trace w ++ [e])).
Proof.
  intros Hf Hd He. split_and!; cbn [files dirs trace].
  - done.
  - destruct Hd as [->| ->]; [done | apply union_subseteq_r].
  - destruct Hd as [->| ->]; [apply union_subseteq_r | done].
  - exists [e]. split; [done|]. by constructor.
Qed.

Lemma footprint_open_wb w : job_footprint temp_path job_output_dir w (open_wb os temp_path w).2.
Proof.
  unfold open_wb. rewrite bind_run. simpl.
  destruct (open_error os temp_path); simpl.
  - apply footprint_step; [done | by left | by left].
  - apply footprint_step; [|by left | by left].
    intros path Hp. by apply lookup_insert_ne.
Qed.

Lemma footprint_append chunk w :
  job_footprint temp_path job_output_dir w (append_bytes temp_path chunk w).2.
Proof.
  unfold append_bytes. rewrite bind_run. simpl.
  apply footprint_step; [|by left | right; left; by eexists].
  intros path Hp. by apply lookup_insert_ne.
Qed.

Lemma footprint_save_chunks fuel file sz w :
  job_footprint temp_path job_output_dir w (save_chunks cfg fuel temp_path file sz w).2.
Proof.
  revert file sz w. induction fuel as [|fuel IH]; intros file sz w.
  - apply footprint_refl.
  - cbn [save_chunks UploadFile_read].
    destruct (take _ (stream file)) as [|b chunk]; [apply footprint_refl|].
    destruct (_ >? _); [apply footprint_refl|].
    rewrite bind_run.
    pose proof (footprint_append (b :: chunk) w) as Happ.
    destruct (append_bytes temp_path (b :: chunk) w) as [[[]|e] w1]; [|done].
    eapply footprint_trans; [exact Happ | apply IH].
Qed.

Lemma footprint_save_upload file w :
  job_footprint temp_path job_output_dir w (save_upload cfg os temp_path file w).2.
Proof.
  unfold save_upload. rewrite bind_run.
  pose proof (footprint_open_wb w) as Hopen.
  destruct (open_wb os temp_path w) as [[[]|e] w1]; [|done].
  eapply footprint_trans; [exact Hopen | apply footprint_save_chunks].
Qed.

Lemma footprint_mkdir_parents w :
  job_footprint temp_path job_output_dir w (mkdir_parents os job_output_dir w).2.
Proof.
  unfold mkdir_parents. rewrite bind_run. simpl.
  destruct (mkdir_error os job_output_dir); simpl.
  - apply footprint_step; [done | by left | right; right; by left].
  - apply footprint_step; [done | by right | right; right; by left].
Qed.

Lemma footprint_cleaned w : job_footprint temp_path job_output_dir w (cleaned os temp_path w).
Proof.
  unfold cleaned. destruct (_ || _); [|apply footprint_refl].
  destruct (unlink_error os temp_path).
  - apply footprint_step; [done | by left | by do 3 right].
  - apply footprint_step; [|by left | by do 3 right].
    intros path Hp. by apply lookup_delete_ne.
Qed.

End FootprintFacts.

Section EndpointFacts.
Context (cfg : Config) (os : os_env) (ext : engines).

(** The body of the guarded block always ends in an exception: the 413, the
    [OSError] of [open] or of [mkdir], or the [TypeError] of the constructor
    call. *)
Lemma try_block_outcome job_id temp_path file w :
  ∃ e, (try_block cfg os ext job_id temp_path file w).1 = Raise e
       ∧ (e = too_large cfg
          ∨ (∃ msg, e = OSError msg
                    ∧ (open_error os temp_path = Some msg
                       ∨ mkdir_error os (OUTPUT_DIR cfg // job_id) = Some msg))
          ∨ e = TypeError
                "DocumentAnalyzer.__init__() got an unexpected keyword argument 'output_dir'").
Proof.
  unfold try_block. rewrite bind_run.
  assert ((∃ n, (save_upload cfg os temp_path file w).1 = Ok n)
          ∨ (save_upload cfg os temp_path file w).1 = Raise (too_large cfg)
          ∨ ∃ msg, (save_upload cfg os temp_path file w).1 = Raise (OSError msg)
                   ∧ open_error os temp_path = Some msg) as Hsave.
  { unfold save_upload. rewrite bind_run.
    destruct (open_error os temp_path) as [msg|] eqn:Hopen.
    - rewrite (open_wb_fails os _ msg) by done. right; right; by eexists.
    - rewrite (open_wb_ok os) by done.
      destruct (save_chunks_outcome cfg temp_path (S (length (stream file))) file 0
                  (World (<[temp_path:=Binary []]> (files w)) (dirs w)
                         (trace w ++ [EvOpen temp_path]))) as [H|H];
        [by left | right; by left]. }
  destruct (save_upload cfg os temp_path file w) as [[n|e] w1]; cbn [fst] in Hsave.
  - rewrite bind_run.
    destruct (mkdir_error os (OUTPUT_DIR cfg // job_id)) as [msg|] eqn:Hmk.
    + rewrite (mkdir_parents_fails os _ msg) by done.
      eexists. split; [done|]. right. left. eexists. split; [done | by right].
    + rewrite (mkdir_parents_ok os) by done.
      rewrite bind_run, constructor_rejects_output_dir.
      eexists. split; [done|]. by do 2 right.
  - exists e. split; [done|].
    destruct Hsave as [[n Hn]|[H|(msg & H & Hopen)]]; simplify_eq; [by left|].
    right. left. eexists. split; [done | by left].
Qed.


(** The [finally] clause after the temp file has been written. *)
Lemma cleaned_stored temp_path c fs ds tr :
  cleaned os temp_path (World (<[temp_path := c]> fs) ds tr)
  = match unlink_error os temp_path with
    | None => World (delete temp_path fs) ds (tr ++ [EvUnlink temp_path])
    | Some _ => World (<[temp_path := c]> fs) ds (tr ++ [EvUnlink temp_path])
    end.
Proof.
  unfold cleaned. cbn [files dirs trace].
  rewrite lookup_insert_eq, bool_decide_true by done. cbn [orb].
  destruct (unlink_error os temp_path); [done|]. by rewrite delete_insert_eq.
Qed.

Lemma footprint_try_block job_id temp_path file w :
  job_footprint temp_path (OUTPUT_DIR cfg // job_id) w
    (try_block cfg os ext job_id temp_path file w).2.
Proof.
  unfold try_block. rewrite bind_run.
  pose proof (footprint_save_upload cfg os temp_path (OUTPUT_DIR cfg // job_id) file w)
    as Hsave.
  destruct (save_upload cfg os temp_path file w) as [[n|e] w1]; [|done].
  rewrite bind_run.
  pose proof (footprint_mkdir_parents os temp_path (OUTPUT_DIR cfg // job_id) w1) as Hmk.
  destruct (mkdir_parents os (OUTPUT_DIR cfg // job_id) w1) as [[[]|e] w2]; cbn [snd] in *.
  - rewrite bind_run, constructor_rejects_output_dir. by eapply footprint_trans.
  - by eapply footprint_trans.
Qed.

End EndpointFacts.

Section ServiceFacts.
Import PyStr.

(** A list is cut in one way only at the first occurrence of a character. *)
Lemma delimited_by (c : ascii) (l1 l2 r1 r2 : list ascii) :
  c ∉ l1 → c ∉ l2 → l1 ++ c :: r1 = l2 ++ c :: r2 → l1 = l2 ∧ r1 = r2.
Proof.
  revert l2. induction l1 as [|a l1 IH]; intros l2 H1 H2 E.
  - destruct l2 as [|b l2]; cbn [app] in E.
    + by injection E as ->.
    + injection E as <- _. exfalso. apply H2. by left.
  - destruct l2 as [|b l2]; cbn [app] in E.
    + injection E as -> _. exfalso. apply H1. by left.
    + injection E as -> E.
      apply not_elem_of_cons in H1 as [_ H1]. apply not_elem_of_cons in H2 as [_ H2].
      destruct (IH l2 H1 H2 E) as [-> ->]. done.
Qed.

Lemma split_chars_nonempty sep s : split_chars sep s ≠ [].
Proof.
  destruct s as [|c s]; cbn [split_chars]; [done|].
  destruct (Ascii.eqb c sep); [done|]. by destruct (split_chars sep s).
Qed.

Lemma concat_cons sep (x y : string) (ys : list string) :
  String.concat sep (x :: y :: ys) = x +:+ sep +:+ String.concat sep (y :: ys).
Proof. reflexivity. Qed.

(** Joining the pieces of a split with the separator gives the string back. *)
Lemma join_split_chars (s : list ascii) :
  String.concat "," (of_chars <$> split_chars ","%char s) = of_chars s.
Proof.
  induction s as [|c s IH]; [done|]. cbn [split_chars].
  pose proof (split_chars_nonempty ","%char s) as Hne.
  destruct (split_chars ","%char s) as [|p ps]; [done|]. clear Hne.
  destruct (Ascii.eqb c ","%char) eqn:Hc.
  - apply Ascii.eqb_eq in Hc as ->.
    rewrite !fmap_cons, concat_cons. rewrite fmap_cons in IH. by rewrite IH.
  - rewrite fmap_cons in *. destruct ps as [|p' ps].
    + cbn [fmap list_fmap String.concat] in *. cbn [of_chars String.string_of_list_ascii].
      by rewrite IH.
    + rewrite fmap_cons in *. rewrite concat_cons in *.
      cbn [of_chars String.string_of_list_ascii String.append]. by rewrite <- IH.
Qed.

(** No piece of a split holds the separator. *)
Lemma split_chars_pieces sep s piece : piece ∈ split_chars sep s → sep ∉ piece.
Proof.
  revert piece. induction s as [|c s IH]; intros piece; cbn [split_chars].
  - intros ->%list_elem_of_singleton. apply not_elem_of_nil.
  - destruct (Ascii.eqb c sep) eqn:Hc.
    + intros [->|H]%elem_of_cons; [apply not_elem_of_nil | by apply IH].
    + apply Ascii.eqb_neq in Hc.
      destruct (split_chars sep s) as [|p ps].
      * intros ->%list_elem_of_singleton. intros [->|H]%elem_of_cons; [done|].
        by apply not_elem_of_nil in H.
      * intros [->|H]%elem_of_cons.
        -- intros [->|H]%elem_of_cons; [done|]. revert H. apply IH. by left.
        -- apply IH. by right.
Qed.

Lemma ascii_upper_lower c : ascii_upper (ascii_lower c) = ascii_upper c.
Proof. destruct c as [[] [] [] [] [] [] [] []]; vm_compute; reflexivity. Qed.

(** [s.lower().upper() == s.upper()] *)
Lemma upper_lower s : upper (lower s) = upper s.
Proof.
  unfold upper. fold (chars (lower s)). rewrite chars_lower. fold (chars s).
  rewrite <- list_fmap_compose. f_equal. apply list_fmap_ext.
  intros i c _. apply ascii_upper_lower.
Qed.

(** The readiness probe in one step. *)
Lemma readiness_check_run cfg (DocumentConverter : res unit) w :
  readiness_check cfg DocumentConverter w
  = (if match DocumentConverter with Ok _ => true | Raise _ => false end
        && ((bool_decide (is_Some (files w !! OUTPUT_DIR cfg))
             || bool_decide (OUTPUT_DIR cfg ∈ dirs w))
            && (bool_decide (is_Some (files w !! TEMP_DIR cfg))
                || bool_decide (TEMP_DIR cfg ∈ dirs w)))
     then Ok {| Readiness.status := "ready"; Readiness.docling_ready := true;
                Readiness.storage_ready := true |}
     else Raise (HTTPException 503 "Service not ready"), w).
Proof.
  unfold readiness_check, try_except, of_res, path_exists, gets.
  unfold mbind, M_bind, bind, mret, M_ret, ret, raise.
  destruct DocumentConverter as [[]|e];
    destruct (bool_decide (is_Some (files w !! OUTPUT_DIR cfg))
              || bool_decide (OUTPUT_DIR cfg ∈ dirs w)),
             (bool_decide (is_Some (files w !! TEMP_DIR cfg))
              || bool_decide (TEMP_DIR cfg ∈ dirs w)); done.
Qed.

End ServiceFacts.

(** C4: an upload whose declared name does not end in ".pdf", whatever the
    case of its letters, is refused with the 400 validation error before any
    call reaches the file system: files, directories and the trace of calls
    are as they were, so neither a temp file nor an output directory exists
    for the job. *)
Theorem wrong_extension_rejected_before_io cfg os ext file w :
  PyStr.endswith (PyStr.lower (filename file)) ".pdf" = false →
  analyze_document cfg os ext file w
  = (Raise (HTTPException 400 "Only PDF files are supported"), w).
Proof. intros H. unfold analyze_document. by rewrite H. Qed.

(** The upload of a stream, from [open] to the end of the [with] block. *)
Lemma save_upload_spec cfg os temp_path file w :
  0 ≤ MAX_FILE_SIZE_MB cfg →
  open_error os temp_path = None →
  ∃ chunks,
    (save_upload cfg os temp_path file w).2
    = World (<[temp_path := Binary (mjoin chunks)]> (files w)) (dirs w)
            (trace w ++ EvOpen temp_path :: (EvAppend temp_path <$> chunks))
    ∧ mjoin chunks `prefix_of` stream file
    ∧ Forall (λ c, c ≠ [] ∧ Z.of_nat (length c) ≤ 8192) chunks
    ∧ Z.of_nat (length (mjoin chunks)) ≤ size_limit cfg
    ∧ ((Z.of_nat (length (stream file)) ≤ size_limit cfg
        ∧ (save_upload cfg os temp_path file w).1 = Ok (Z.of_nat (length (stream file)))
        ∧ mjoin chunks = stream file)
       ∨ (size_limit cfg < Z.of_nat (length (stream file))
          ∧ (save_upload cfg os temp_path file w).1 = Raise (too_large cfg)
          ∧ size_limit cfg < Z.of_nat (length (mjoin chunks)) + 8192)).
Proof.
  intros Hmax Hopen. unfold save_upload. rewrite bind_run, open_wb_ok by done.
  set (w1 := World _ _ _).
  destruct (save_chunks_spec cfg temp_path (S (length (stream file))) file 0 w1 [])
    as (chunks & Hw & Hpre & Hall & Hbound & Hend).
  - lia.
  - apply lookup_insert_eq.
  - unfold size_limit. lia.
  - exists chunks. rewrite Hw. subst w1. cbn [files dirs trace].
    rewrite insert_insert_eq, <- app_assoc. cbn [app].
    split_and!; [done | done | done | lia |].
    destruct Hend as [(H1 & H2 & H3) | (H1 & H2 & H3)]; [left | right];
      (split_and!; [lia | by rewrite H2 | done || lia]).
Qed.

(** C10: whatever the stream, the bytes written to the temp file are a
    prefix of it no longer than the size limit: the running count is checked
    before each write, and the chunk that takes it over the limit is not
    written. *)
Theorem temp_file_never_exceeds_limit cfg os temp_path file w :
  0 ≤ MAX_FILE_SIZE_MB cfg →
  ∃ chunks,
    let w' := (save_upload cfg os temp_path file w).2 in
    trace w' = trace w ++ EvOpen temp_path :: (EvAppend temp_path <$> chunks)
    ∧ Z.of_nat (length (mjoin chunks)) ≤ size_limit cfg
    ∧ mjoin chunks `prefix_of` stream file
    ∧ (open_error os temp_path = None →
       files w' = <[temp_path := Binary (mjoin chunks)]> (files w))
    ∧ (open_error os temp_path = None →
       size_limit cfg < Z.of_nat (length (stream file)) →
       (save_upload cfg os temp_path file w).1 = Raise (too_large cfg)
       ∧ size_limit cfg < Z.of_nat (length (mjoin chunks)) + 8192).
Proof.
  intros Hmax. destruct (open_error os temp_path) as [msg|] eqn:Hopen.
  - exists []. unfold save_upload. rewrite bind_run, (open_wb_fails os _ msg) by done.
    simpl. unfold size_limit. split_and!; [done | lia | by eexists | done | done].
  - destruct (save_upload_spec cfg os temp_path file w Hmax Hopen)
      as (chunks & Hw & Hpre & Hall & Hbound & Hend).
    exists chunks. cbn zeta. rewrite Hw. cbn [files dirs trace].
    split_and!; [done | done | done | done |].
    intros _ Hbig. destruct Hend as [(H1 & H2 & H3) | (H1 & H2 & H3)]; [lia | done].
Qed.

(** An accepted upload within the limit gets as far as the constructor call
    and no further: the job directory is created, the call raises
    [TypeError], the job is reported as failed and nothing is left of the
    temp file. *)
Lemma accepted_upload_fails_in_constructor cfg os ext file w :
  let job_id := uuid4 os in
  let temp_path := temp_path_of cfg job_id file in
  PyStr.endswith (PyStr.lower (filename file)) ".pdf" = true →
  0 ≤ MAX_FILE_SIZE_MB cfg →
  Z.of_nat (length (stream file)) ≤ size_limit cfg →
  open_error os temp_path = None →
  mkdir_error os (OUTPUT_DIR cfg // job_id) = None →
  unlink_error os temp_path = None →
  analyze_document cfg os ext file w
  = (Ok (failed_result os job_id (TypeError
       "DocumentAnalyzer.__init__() got an unexpected keyword argument 'output_dir'")),
     World (delete temp_path (files w))
           (list_to_set (OUTPUT_DIR cfg // job_id :: Path.parents (OUTPUT_DIR cfg // job_id))
            ∪ dirs w)
           ((save_upload cfg os temp_path file w).2.(trace)
            ++ [EvMkdir (OUTPUT_DIR cfg // job_id); EvUnlink temp_path])).
Proof.
  intros job_id temp_path Hpdf Hmax Hfit Hopen Hmk Hunlink.
  destruct (save_upload_spec cfg os temp_path file w Hmax Hopen)
    as (chunks & Hw & _ & _ & _ & [(_ & Hr & _) | (Hbig & _)]); [|lia].
  rewrite analyze_document_accepted, guarded_run by done. fold job_id temp_path.
  assert (try_block cfg os ext job_id temp_path file w
          = (Raise (TypeError
               "DocumentAnalyzer.__init__() got an unexpected keyword argument 'output_dir'"),
             made_dirs (OUTPUT_DIR cfg // job_id) (save_upload cfg os temp_path file w).2))
    as ->.
  { unfold try_block. rewrite bind_run.
    destruct (save_upload cfg os temp_path file w) as [r w1]. simpl in Hr. subst r.
    rewrite bind_run, mkdir_parents_ok by done.
    by rewrite bind_run, constructor_rejects_output_dir. }
  cbn [fst snd reported is_HTTPException]. f_equal.
  rewrite Hw. unfold cleaned. cbn [files dirs trace made_dirs].
  rewrite lookup_insert_eq, bool_decide_true by done. cbn [orb]. rewrite Hunlink.
  rewrite delete_insert_eq, <- app_assoc. done.
Qed.

(** C5: an accepted upload that is longer than the size limit is aborted with
    the 413 error at the first chunk of at most 8 KiB that takes the running
    count over the limit: the calls made are the opening of the temp file,
    the writes of the chunks before that one and the deletion of the temp
    file, so no directory is created and no engine is called; and once the
    deletion has succeeded the files are those from before the request,
    without the temp file. *)
Theorem oversize_upload_aborts cfg os ext file w :
  let temp_path := temp_path_of cfg (uuid4 os) file in
  PyStr.endswith (PyStr.lower (filename file)) ".pdf" = true →
  0 ≤ MAX_FILE_SIZE_MB cfg →
  open_error os temp_path = None →
  size_limit cfg < Z.of_nat (length (stream file)) →
  ∃ chunks,
    let w' := (analyze_document cfg os ext file w).2 in
    (analyze_document cfg os ext file w).1 = Raise (too_large cfg)
    ∧ trace w' = trace w ++ EvOpen temp_path :: (EvAppend temp_path <$> chunks)
                         ++ [EvUnlink temp_path]
    ∧ dirs w' = dirs w
    ∧ mjoin chunks `prefix_of` stream file
    ∧ Forall (λ c, c ≠ [] ∧ Z.of_nat (length c) ≤ 8192) chunks
    ∧ Z.of_nat (length (mjoin chunks)) ≤ size_limit cfg
      < Z.of_nat (length (mjoin chunks)) + 8192
    ∧ (unlink_error os temp_path = None → files w' = delete temp_path (files w)).
Proof.
  intros temp_path Hpdf Hmax Hopen Hbig.
  destruct (save_upload_spec cfg os temp_path file w Hmax Hopen)
    as (chunks & Hw & Hpre & Hall & Hbound & [(H1 & _) | (_ & Hr & Hnear)]); [lia|].
  exists chunks. cbn zeta.
  rewrite analyze_document_accepted, guarded_run by done. fold temp_path.
  assert (try_block cfg os ext (uuid4 os) temp_path file w
          = (Raise (too_large cfg), (save_upload cfg os temp_path file w).2)) as Hbody.
  { unfold try_block. rewrite bind_run.
    destruct (save_upload cfg os temp_path file w) as [r w1]. simpl in Hr. by rewrite Hr. }
  rewrite Hbody, Hw. cbn [fst snd reported too_large is_HTTPException].
  unfold cleaned. cbn [files dirs trace].
  rewrite lookup_insert_eq, bool_decide_true by done. cbn [orb].
  destruct (unlink_error os temp_path) as [msg|] eqn:Hunlink; cbn [files dirs trace logged].
  - rewrite <- app_assoc. split_and!; done.
  - rewrite <- app_assoc. split_and!; try done. intros _. apply delete_insert_eq.
Qed.

(** C6: once the endpoint has entered its guarded block, whatever the block
    does (complete the job, abort an oversize upload, fail in the pipeline),
    the temp file is unlinked if it is there, so that no file is left at its
    path when the deletion succeeds; and whether the deletion succeeds or
    fails, the outcome reported to the caller is the same. *)
Theorem temp_file_deleted_on_every_exit cfg os ext file w :
  let job_id := uuid4 os in
  let temp_path := temp_path_of cfg job_id file in
  PyStr.endswith (PyStr.lower (filename file)) ".pdf" = true →
  (analyze_document cfg os ext file w
   = guarded os job_id temp_path (try_block cfg os ext job_id temp_path file) w)
  ∧ (unlink_error os temp_path = None →
     files (analyze_document cfg os ext file w).2 !! temp_path = None)
  ∧ (∀ f, (analyze_document cfg (with_unlink_error f os) ext file w).1
          = (analyze_document cfg os ext file w).1)
  ∧ (∀ body : M AnalysisResult,
       let out := guarded os job_id temp_path body w in
       (unlink_error os temp_path = None → files out.2 !! temp_path = None)
       ∧ (is_Some (files (body w).2 !! temp_path) →
          trace out.2 = trace (body w).2 ++ [EvUnlink temp_path])
       ∧ (∀ f, (guarded (with_unlink_error f os) job_id temp_path body w).1 = out.1)).
Proof.
  intros job_id temp_path Hpdf. split_and!.
  - by apply analyze_document_accepted.
  - intros Hunlink. rewrite analyze_document_accepted, guarded_run by done.
    by apply cleaned_no_file.
  - intros f. rewrite !analyze_document_accepted, !guarded_run by done. reflexivity.
  - intros body out. unfold out. rewrite guarded_run. split_and!.
    + by apply cleaned_no_file.
    + intros Hthere. cbn [snd]. unfold cleaned.
      rewrite bool_decide_true by done. cbn [orb].
      by destruct (unlink_error os temp_path).
    + intros f. by rewrite guarded_run.
Qed.


(** C2: no job gets its markdown and summary files.  Whatever the request,
    the endpoint writes no file but the temp file and returns no descriptor
    with results, so that no [{stem}.md] and no [{stem}_summary.json] appears
    in the directory of the job: the constructor call ends the job before an
    exporter runs.  The exporters themselves name the two files as the claim
    says, after the final component of the analyzer's path without its
    suffix, but put them in the relative directory [output], which is the
    directory of no job. *)
Theorem job_yields_no_markdown_or_summary cfg os ext file w :
  let job_id := uuid4 os in
  let temp_path := temp_path_of cfg job_id file in
  let run := analyze_document cfg os ext file w in
  (∀ res, run.1 = Ok res → status res = "failed" ∧ results res = None)
  ∧ (∀ path, path ≠ temp_path → files run.2 !! path = files w !! path)
  ∧ (∀ path c, EvWriteFile path c ∈ trace run.2 → EvWriteFile path c ∈ trace w)
  ∧ (∀ dir base e r d w0,
       "/"%char ∉ PyStr.chars base → "/"%char ∉ PyStr.chars e →
       "."%char ∉ PyStr.chars e → base ≠ "" → e ≠ "" →
       mkdir_error os "output" = None → (∀ path, open_error os path = None) →
       let self := {| pdf_path := dir // (base +:+ "." +:+ e);
                      result := Some r; doc := Some d |} in
       _save_markdown os self w0
       = (Ok tt, written [("output" // (base +:+ ".md"),
                           Text (Docling.export_to_markdown (Docling.document r)))]
                         (made_dir "output" w0))
       ∧ ∀ stats,
           _create_summary_report os self stats w0
           = (Ok tt, written [("output" // (base +:+ "_summary.json"),
                               JsonReport (now_isoformat os) stats)]
                             (made_dir "output" w0))).
Proof.
  intros job_id temp_path run.
  assert (job_footprint temp_path (OUTPUT_DIR cfg // job_id) w run.2) as Hfoot.
  { unfold run.
    destruct (PyStr.endswith (PyStr.lower (filename file)) ".pdf") eqn:Hpdf.
    - rewrite analyze_document_accepted, guarded_run by done. cbn [snd].
      eapply footprint_trans; [apply footprint_try_block | apply footprint_cleaned].
    - unfold analyze_document. rewrite Hpdf. apply footprint_refl. }
  destruct Hfoot as (Hfiles & _ & _ & evs & Htrace & Hevs).
  split_and!.
  - intros res. unfold run.
    destruct (PyStr.endswith (PyStr.lower (filename file)) ".pdf") eqn:Hpdf.
    + rewrite analyze_document_accepted, guarded_run by done. cbn [fst].
      destruct (try_block_outcome cfg os ext (uuid4 os)
                  (temp_path_of cfg (uuid4 os) file) file w) as (e & -> & He).
      destruct He as [->|[(msg & -> & _)| ->]]; cbn [reported is_HTTPException];
        [done | by intros [= <-] | by intros [= <-]].
    + unfold analyze_document. by rewrite Hpdf.
  - done.
  - intros path c. rewrite Htrace, elem_of_app. intros [?|Hin]; [done|].
    rewrite Forall_forall in Hevs. apply Hevs in Hin.
    by destruct Hin as [?|[[? ?]|[?|?]]].
  - intros dir base e r d w0 Hbase He Hdot Hbn Hen Hmk Hopen self.
    unfold self. rewrite save_markdown_run by done. split.
    + by rewrite stem_join.
    + intros stats. rewrite create_summary_report_run by done.
      cbn [pdf_path]. by rewrite stem_join.
Qed.

(** ** The job directory at the sample request *)

(** C1: the artifacts do not go to the directory of the job.  For the upload
    [report.pdf] handled as job [j1], the endpoint creates
    [/app/data/output/j1] with its ancestors and then fails in the
    constructor call, which
    passes an [output_dir] that [DocumentAnalyzer.__init__] does not take: no
    artifact is written and the job is reported as failed.  The analyzer run
    on the temp file of that job writes every artifact under the relative
    directory [output], never under [/app/data/output/j1]. *)
Theorem job_directory_not_used :
  let temp_path := temp_path_of sample_config "j1" sample_upload in
  let run := analyze_document sample_config sample_os sample_engines sample_upload
               empty_world in
  let direct := analyze sample_os sample_engines (new_analyzer temp_path) empty_world in
  run.1 = Ok (failed_result sample_os "j1" (TypeError
            "DocumentAnalyzer.__init__() got an unexpected keyword argument 'output_dir'"))
  ∧ dom (files run.2) = ∅
  ∧ dirs run.2 = {[ "/app/data/output/j1"; "/app/data/output"; "/app/data"; "/app"; "/" ]}
  ∧ dirs direct.2 = {[ "output"; "output/j1_report_images" ]}
  ∧ dom (files direct.2)
    = {[ "output/j1_report.md"; "output/j1_report_summary.json";
         "output/j1_report_table_1.csv"; "output/j1_report_table_2.csv";
         "output/j1_report_images/page1_img1.png";
         "output/j1_report_images/page1_img2.png";
         "output/j1_report_images/page3_img1.jpeg" ]}.
Proof.
  intros temp_path run direct. split_and!; [vm_compute; reflexivity | compute_done..].
Qed.

(** ** The theorems at the sample inputs *)

(** [notes.txt] is refused before any call. *)
Lemma wrong_extension_witness :
  PyStr.endswith (PyStr.lower "notes.txt") ".pdf" = false
  ∧ analyze_document sample_config sample_os sample_engines
      {| filename := "notes.txt"; stream := [x68; x69] |} empty_world
    = (Raise (HTTPException 400 "Only PDF files are supported"), empty_world).
Proof.
  split; [reflexivity|].
  apply (wrong_extension_rejected_before_io sample_config sample_os sample_engines
           {| filename := "notes.txt"; stream := [x68; x69] |} empty_world).
  reflexivity.
Defined.

(** With a limit of 0 bytes nothing of a four-byte upload is written. *)
Lemma temp_file_limit_witness :
  0 ≤ MAX_FILE_SIZE_MB zero_limit_config
  ∧ ∃ chunks,
      trace (save_upload zero_limit_config sample_os "/app/data/temp/j1_report.pdf"
               sample_upload empty_world).2
      = [] ++ EvOpen "/app/data/temp/j1_report.pdf"
              :: (EvAppend "/app/data/temp/j1_report.pdf" <$> chunks)
      ∧ Z.of_nat (length (mjoin chunks)) ≤ size_limit zero_limit_config.
Proof.
  assert (0 ≤ MAX_FILE_SIZE_MB zero_limit_config) as H by (vm_compute; discriminate).
  split; [exact H|].
  destruct (temp_file_never_exceeds_limit zero_limit_config sample_os
              "/app/data/temp/j1_report.pdf" sample_upload empty_world H)
    as (chunks & Htrace & Hbound & _).
  exists chunks. split; [exact Htrace | exact Hbound].
Defined.

(** The four-byte upload against a limit of 0 bytes is answered with 413. *)
Lemma oversize_witness :
  PyStr.endswith (PyStr.lower (filename sample_upload)) ".pdf" = true
  ∧ 0 ≤ MAX_FILE_SIZE_MB zero_limit_config
  ∧ open_error sample_os (temp_path_of zero_limit_config (uuid4 sample_os) sample_upload) = None
  ∧ size_limit zero_limit_config < Z.of_nat (length (stream sample_upload))
  ∧ (analyze_document zero_limit_config sample_os sample_engines sample_upload empty_world).1
    = Raise (too_large zero_limit_config).
Proof.
  assert (0 ≤ MAX_FILE_SIZE_MB zero_limit_config) as H by (vm_compute; discriminate).
  assert (size_limit zero_limit_config < Z.of_nat (length (stream sample_upload))) as Hbig
    by (vm_compute; reflexivity).
  split_and!; [reflexivity | exact H | reflexivity | exact Hbig |].
  destruct (oversize_upload_aborts zero_limit_config sample_os sample_engines sample_upload
              empty_world eq_refl H eq_refl Hbig) as (chunks & Hr & _).
  exact Hr.
Defined.

(** The temp file of [report.pdf] is gone after the request. *)
Lemma temp_file_deleted_witness :
  PyStr.endswith (PyStr.lower (filename sample_upload)) ".pdf" = true
  ∧ files (analyze_document sample_config sample_os sample_engines sample_upload
             empty_world).2 !! "/app/data/temp/j1_report.pdf" = None.
Proof.
  split; [reflexivity|].
  apply (temp_file_deleted_on_every_exit sample_config sample_os sample_engines
           sample_upload empty_world eq_refl).
  reflexivity.
Defined.


(** After the request for [report.pdf] as job [j1] there is no markdown file
    in the directory of the job. *)
Lemma no_markdown_witness :
  "/app/data/output/j1/report.md"
  ≠ temp_path_of sample_config (uuid4 sample_os) sample_upload
  ∧ files (analyze_document sample_config sample_os sample_engines sample_upload
             empty_world).2 !! "/app/data/output/j1/report.md"
    = files empty_world !! "/app/data/output/j1/report.md".
Proof.
  assert ("/app/data/output/j1/report.md"
          ≠ temp_path_of sample_config (uuid4 sample_os) sample_upload) as Hne
    by discriminate.
  split; [exact Hne|].
  exact (proj1 (proj2 (job_yields_no_markdown_or_summary sample_config sample_os
                         sample_engines sample_upload empty_world)) _ Hne).
Defined.

(** The two tables of the sample document. *)
Lemma save_tables_witness :
  mkdir_error sample_os "output" = None
  ∧ (∀ path, open_error sample_os path = None)
  ∧ _save_tables sample_os
      {| pdf_path := "/app/data/temp/j1_report.pdf"; result := None;
         doc := Some sample_document |} empty_world
    = (Ok tt,
       written [("output/j1_report_table_1.csv", Text "a,b");
                ("output/j1_report_table_2.csv", Text "c")]
               (made_dir "output" empty_world)).
Proof.
  split_and!; [reflexivity | intros path; reflexivity |].
  apply (save_tables_one_csv_per_table sample_os "/app/data/temp/j1_report.pdf" None
           sample_document empty_world eq_refl (λ _, eq_refl)).
Defined.

(** The three images of the sample PDF, on pages 1 and 3. *)
Lemma save_images_witness :
  (∀ path, mkdir_error sample_os path = None)
  ∧ (∀ path, open_error sample_os path = None)
  ∧ fitz_open sample_engines "/app/data/temp/j1_report.pdf" = Ok sample_pdf
  ∧ (∀ xref, Fitz.extract_image sample_pdf xref = Ok (sample_image xref))
  ∧ (_save_images sample_os sample_engines
       {| pdf_path := "/app/data/temp/j1_report.pdf"; result := None;
          doc := Some sample_document |} empty_world).1 = Ok tt
  ∧ "output/j1_report_images"
    ∈ dirs (_save_images sample_os sample_engines
              {| pdf_path := "/app/data/temp/j1_report.pdf"; result := None;
                 doc := Some sample_document |} empty_world).2.
Proof.
  split_and!; [intros path; reflexivity | intros path; reflexivity | reflexivity
              | intros xref; reflexivity | |].
  - destruct (save_images_one_file_per_image sample_os sample_engines
                "/app/data/temp/j1_report.pdf" None sample_document sample_pdf sample_image
                empty_world (λ _, eq_refl) (λ _, eq_refl) eq_refl (λ _, eq_refl))
      as (Hrun & _).
    rewrite Hrun. reflexivity.
  - destruct (save_images_one_file_per_image sample_os sample_engines
                "/app/data/temp/j1_report.pdf" None sample_document sample_pdf sample_image
                empty_world (λ _, eq_refl) (λ _, eq_refl) eq_refl (λ _, eq_refl))
      as (Hrun & Hdir & _).
    rewrite Hrun. exact Hdir.
Defined.

(** ** Further properties of the analyzer *)

Section LoopFacts.
Context (os : os_env).

Lemma for_enumerate_app {A} (body : nat → A → M unit) (l1 l2 : list A) start w :
  for_enumerate start (l1 ++ l2) body w
  = match for_enumerate start l1 body w with
    | (Ok _, w') => for_enumerate (start + length l1) l2 body w'
    | (Raise e, w') => (Raise e, w')
    end.
Proof.
  revert start w. induction l1 as [|x l1 IH]; intros start w; simpl.
  - unfold mret, M_ret, ret. by rewrite Nat.add_0_r.
  - rewrite !bind_run. destruct (body start x w) as [[[]|e] w1]; [|done].
    rewrite IH. by rewrite Nat.add_succ_r.
Qed.

(** A loop in which every round succeeds on the elements it meets. *)
Lemma for_enumerate_written_in {A} (body : nat → A → M unit)
    (g : nat → A → list (string * content)) (l : list A) start w :
  (∀ i x w, l !! i = Some x →
     body (start + i)%nat x w = (Ok tt, written (g (start + i)%nat x) w)) →
  for_enumerate start l body w
  = (Ok tt, written (mjoin (imap (λ i, g (start + i)%nat) l)) w).
Proof.
  revert start w. induction l as [|x l IH]; intros start w Hbody.
  - simpl. unfold mret, M_ret, ret. by rewrite written_nil, app_nil_r, world_eta.
  - rewrite imap_cons. cbn [for_enumerate].
    change (mjoin (?a :: ?l)) with (a ++ mjoin l).
    rewrite written_app, bind_run.
    specialize (Hbody 0%nat x w eq_refl) as H0. rewrite Nat.add_0_r in H0. rewrite H0.
    rewrite Nat.add_0_r, IH.
    + do 3 f_equal. apply imap_ext. intros i y _. simpl. f_equal. lia.
    + intros i y w' Hi. replace (S start + i)%nat with (start + S i)%nat by lia.
      by apply Hbody.
Qed.

(** A loop that fails at the element after [l1], having written [gx] in that
    round. *)
Lemma for_enumerate_fails {A} (body : nat → A → M unit)
    (g : nat → A → list (string * content)) (l1 l2 : list A) x gx e start w :
  (∀ i y w, l1 !! i = Some y →
     body (start + i)%nat y w = (Ok tt, written (g (start + i)%nat y) w)) →
  (∀ w, body (start + length l1)%nat x w = (Raise e, written gx w)) →
  for_enumerate start (l1 ++ x :: l2) body w
  = (Raise e, written (mjoin (imap (λ i, g (start + i)%nat) l1) ++ gx) w).
Proof.
  intros Hok Hfail. rewrite for_enumerate_app, (for_enumerate_written_in _ g) by done.
  cbn [for_enumerate]. by rewrite bind_run, Hfail, written_app.
Qed.

(** The files after a sequence of writes: later writes win, the rest is as
    before. *)
Lemma written_files ws w :
  files (written ws w) = list_to_map (reverse ws) ∪ files w.
Proof.
  unfold written. cbn [files]. generalize (files w) as m.
  induction ws as [|[path c] ws IH]; intros m.
  - simpl. by rewrite (left_id_L ∅ (∪)).
  - cbn [foldl]. rewrite IH, reverse_cons, list_to_map_app. simpl.
    rewrite <- (assoc_L (∪)). f_equal.
    by rewrite insert_empty, <- insert_union_singleton_l.
Qed.

Lemma written_files_twice ws w w' :
  files w' = files (written ws w) → files (written ws w') = files (written ws w).
Proof.
  intros H. rewrite !written_files in *. rewrite H.
  by rewrite (assoc_L (∪)), (idemp_L (∪)).
Qed.

Lemma written_lookup_other ws w path :
  path ∉ ws.*1 → files (written ws w) !! path = files w !! path.
Proof.
  intros Hp. rewrite written_files. apply lookup_union_r.
  apply not_elem_of_list_to_map_1. rewrite fmap_reverse, elem_of_reverse. done.
Qed.

End LoopFacts.

Section PipelineFacts.
Context (os : os_env) (ext : engines).

Lemma join_imap_singleton {A B} (f : nat → A → B) (l : list A) :
  mjoin (imap (λ i x, [f i x]) l) = imap f l.
Proof.
  revert f. induction l as [|x l IH]; intros f; [done|].
  rewrite !imap_cons. change (mjoin (?a :: ?l)) with (a ++ mjoin l). simpl. f_equal.
  apply (IH (λ i, f (S i))).
Qed.

Lemma analyzed_files pdf r images w :
  files (analyzed os pdf r images w) = files (written (pipeline_writes os pdf r images) w).
Proof.
  unfold analyzed, pipeline_writes, written, made_dir, logged. cbn [files].
  rewrite !foldl_app. reflexivity.
Qed.

Lemma analyzed_dirs pdf r images w :
  dirs (analyzed os pdf r images w)
  = {[ "output"; "output" // (Path.stem pdf +:+ "_images") ]} ∪ dirs w.
Proof.
  unfold analyzed, written, made_dir, logged. cbn [dirs].
  apply set_eq. intros d. rewrite !elem_of_union, !elem_of_singleton. tauto.
Qed.

Lemma analyzed_trace pdf r images w :
  trace (analyzed os pdf r images w)
  = trace w
    ++ [EvConvert pdf; EvMkdir "output"]
    ++ (write_event <$> table_writes pdf (Docling.tables (Docling.document r)))
    ++ [EvMkdir "output"; EvMkdir ("output" // (Path.stem pdf +:+ "_images"));
        EvFitzOpen pdf]
    ++ (write_event <$> image_writes pdf images)
    ++ [EvMkdir "output";
        EvWriteFile ("output" // (Path.stem pdf +:+ ".md"))
          (Text (Docling.export_to_markdown (Docling.document r)));
        EvMkdir "output";
        EvWriteFile ("output" // (Path.stem pdf +:+ "_summary.json"))
          (JsonReport (now_isoformat os) (document_statistics (Docling.document r)))].
Proof.
  unfold analyzed, written, made_dir, logged. cbn [trace fmap list_fmap].
  rewrite <- !app_assoc. reflexivity.
Qed.

Lemma table_writes_elem pdf tables path :
  path ∈ (table_writes pdf tables).*1 → ∃ i, path = table_csv_path "output" pdf i.
Proof.
  rewrite table_writes_paths. intros (i & t & -> & _)%elem_of_lookup_imap. by exists i.
Qed.

Lemma image_writes_elem pdf images path :
  path ∈ (image_writes pdf images).*1 →
  ∃ pn ii e, path = image_path ("output" // (Path.stem pdf +:+ "_images")) pn ii e.
Proof.
  intros (pc & -> & Hpc)%list_elem_of_fmap.
  apply list_elem_of_join in Hpc as (l & Hpc & Hl).
  apply elem_of_lookup_imap in Hl as (pn & page & -> & _).
  apply elem_of_lookup_imap in Hpc as (ii & img & -> & _).
  by exists pn, ii, (Fitz.ext img).
Qed.

Lemma pipeline_writes_under_output pdf r images path :
  path ∈ (pipeline_writes os pdf r images).*1 → under_output path.
Proof.
  unfold pipeline_writes. rewrite !fmap_app, !elem_of_app. intros [H|[H|H]].
  - by eapply table_writes_under_output.
  - by eapply image_writes_under_output.
  - simpl in H. rewrite !elem_of_cons, elem_of_nil in H.
    destruct H as [->|[->|[]]]; by eexists.
Qed.

End PipelineFacts.

(** Two artifact names with the same stem differ when their endings do. *)
Lemma join_stem_inj dir stem s1 s2 :
  dir // (stem +:+ s1) = dir // (stem +:+ s2) → s1 = s2.
Proof.
  unfold Path.join. intros H. apply (f_equal String.list_ascii_of_string) in H.
  rewrite !chars_app in H. do 3 apply app_inv_head in H. by apply chars_inj.
Qed.

Lemma image_path_ending dir stem pn ii e :
  image_path (dir // (stem +:+ "_images")) pn ii e
  = dir // (stem +:+ "_images/page" +:+ PyStr.str_of_nat (pn + 1) +:+ "_img"
            +:+ PyStr.str_of_nat (ii + 1) +:+ "." +:+ e).
Proof.
  unfold image_path, Path.join. rewrite !string_app_assoc. reflexivity.
Qed.

Lemma pipeline_writes_NoDup os pdf r images : NoDup (pipeline_writes os pdf r images).*1.
Proof.
  unfold pipeline_writes. rewrite !fmap_app.
  apply NoDup_app. split_and!.
  - apply table_writes_NoDup.
  - intros path (i & ->)%table_writes_elem. rewrite elem_of_app. intros [H|H].
    + apply image_writes_elem in H as (pn & ii & e & H).
      rewrite image_path_ending in H. apply join_stem_inj in H.
      cbv [String.append] in H. discriminate H.
    + simpl in H. rewrite !elem_of_cons, elem_of_nil in H.
      destruct H as [H|[H|[]]]; apply join_stem_inj in H;
        cbv [String.append] in H; discriminate H.
  - apply NoDup_app. split_and!.
    + apply image_writes_NoDup.
    + intros path (pn & ii & e & ->)%image_writes_elem H.
      simpl in H. rewrite !elem_of_cons, elem_of_nil in H.
      destruct H as [H|[H|[]]]; rewrite image_path_ending in H;
        apply join_stem_inj in H; cbv [String.append] in H; discriminate H.
    + simpl. apply NoDup_cons. split; [|apply NoDup_singleton].
      rewrite elem_of_cons, elem_of_nil. intros [H|[]].
      apply join_stem_inj in H. discriminate H.
Qed.

(** X1: on an analyzer as the constructor returns it, before [analyze] has
    run, the statistics collector and the table, image and markdown exporters
    all raise the "not converted" [ValueError] and make no call; the
    constructor itself makes none either. *)
Theorem exporters_refuse_before_analyze os ext args kwargs self w0 w1 w :
  DocumentAnalyzer_new args kwargs w0 = (Ok self, w1) →
  w1 = w0
  ∧ _get_statistics self w = (Raise (ValueError
        "Document not converted yet. Call analyze() first."), w)
  ∧ _save_tables os self w = (Raise (ValueError
        "Document not converted yet. Call analyze() first."), w)
  ∧ _save_images os ext self w = (Raise (ValueError
        "Document not converted yet. Call analyze() first."), w)
  ∧ _save_markdown os self w = (Raise (ValueError
        "Document not converted yet. Call analyze() first."), w).
Proof.
  unfold DocumentAnalyzer_new. intros H.
  destruct (List.find _ kwargs) as [[k v]|]; [discriminate H|].
  assert (w1 = w0 ∧ result self = None ∧ doc self = None) as (-> & Hr & Hd).
  { unfold mret, M_ret, ret, raise in H.
    destruct args as [|p [|]], kwargs as [|[k p'] [|]]; simplify_eq/=; done. }
  split; [done|].
  unfold _get_statistics, _save_tables, _save_images, _save_markdown.
  rewrite Hr, Hd. done.
Qed.

(** X2: when the conversion engine rejects the document, [analyze] raises
    that exception having made the conversion call only: no directory is
    created and no file is written. *)
Theorem conversion_failure_writes_nothing os ext self e w :
  convert ext (pdf_path self) = Raise e →
  analyze os ext self w = (Raise e, logged (EvConvert (pdf_path self)) w)
  ∧ files (analyze os ext self w).2 = files w
  ∧ dirs (analyze os ext self w).2 = dirs w.
Proof.
  intros H.
  assert (analyze os ext self w = (Raise e, logged (EvConvert (pdf_path self)) w)) as ->.
  { unfold analyze. rewrite bind_run. simpl. rewrite bind_run. unfold of_res. by rewrite H. }
  done.
Qed.

(** X3: when the PDF reader cannot open the file, [analyze] raises that
    exception after the tables have been exported and the images directory
    created: the CSV files stay, and neither an image, nor the markdown, nor
    the summary is written. *)
Theorem pdf_open_failure_leaves_tables os ext self r e w :
  (∀ path, mkdir_error os path = None) →
  (∀ path, open_error os path = None) →
  convert ext (pdf_path self) = Ok r →
  fitz_open ext (pdf_path self) = Raise e →
  let tables := table_writes (pdf_path self) (Docling.tables (Docling.document r)) in
  let images_dir := "output" // (Path.stem (pdf_path self) +:+ "_images") in
  analyze os ext self w
  = (Raise e,
     logged (EvFitzOpen (pdf_path self))
       (made_dir images_dir (made_dir "output"
          (written tables (made_dir "output" (logged (EvConvert (pdf_path self)) w))))))
  ∧ files (analyze os ext self w).2 = files (written tables w).
Proof.
  intros Hmk Hopen Hconv Hpdf tables images_dir.
  assert (analyze os ext self w
          = (Raise e,
             logged (EvFitzOpen (pdf_path self))
               (made_dir images_dir (made_dir "output"
                  (written tables
                     (made_dir "output" (logged (EvConvert (pdf_path self)) w))))))) as ->.
  { unfold analyze. rewrite bind_run. simpl. rewrite bind_run. unfold of_res at 1.
    rewrite Hconv. rewrite bind_run, get_statistics_run.
    rewrite bind_run, save_tables_run by done.
    rewrite bind_run. unfold _save_images. cbn [doc].
    rewrite bind_run, mkdir_ok by done. rewrite bind_run, mkdir_ok by done.
    rewrite bind_run. simpl. rewrite bind_run. unfold of_res at 1. cbn [pdf_path].
    by rewrite Hpdf. }
  done.
Qed.

Lemma images_count (img : nat → Fitz.base_image) (pages : list (list nat)) :
  sum_list (length <$> ((λ page : list nat, img <$> page) <$> pages)) = length (mjoin pages).
Proof.
  induction pages as [|page pages IH]; [done|].
  change (mjoin (page :: pages)) with (page ++ mjoin pages).
  rewrite length_app, <- IH. simpl. by rewrite length_fmap.
Qed.

(** The image exporter when one extraction fails: the images met before the
    failing one are written, the exception leaves the loops. *)
Lemma save_images_fails os ext (p : string) r d (pdf : Fitz.Document)
    (img : nat → Fitz.base_image) pre_pages pre x post rest e w :
  (∀ path, mkdir_error os path = None) →
  (∀ path, open_error os path = None) →
  fitz_open ext p = Ok pdf →
  Fitz.get_images pdf = pre_pages ++ (pre ++ x :: post) :: rest →
  (∀ xref, xref ∈ mjoin pre_pages ++ pre → Fitz.extract_image pdf xref = Ok (img xref)) →
  Fitz.extract_image pdf x = Raise e →
  _save_images os ext {| pdf_path := p; result := r; doc := Some d |} w
  = (Raise e,
     written (image_writes p ((λ page : list nat, img <$> page) <$> (pre_pages ++ [pre])))
       (logged (EvFitzOpen p)
          (made_dir ("output" // (Path.stem p +:+ "_images")) (made_dir "output" w)))).
Proof.
  intros Hmk Hopen Hpdf Hpages Hok Hbad.
  set (images_dir := "output" // (Path.stem p +:+ "_images")).
  set (g := λ (pn : nat) (page : list nat),
         imap (λ ii xref, (image_path images_dir pn ii (Fitz.ext (img xref)),
                           Binary (Fitz.image (img xref)))) page).
  unfold _save_images. simpl.
  rewrite bind_run, mkdir_ok by done. rewrite bind_run, mkdir_ok by done.
  rewrite bind_run. simpl. rewrite bind_run. unfold of_res at 1. rewrite Hpdf, Hpages.
  rewrite (for_enumerate_fails _ g pre_pages rest _ (g (length pre_pages) pre) e).
  - f_equal. f_equal. rewrite image_writes_by_xref. fold images_dir.
    rewrite imap_app, join_app. f_equal. simpl. by rewrite Nat.add_0_r, app_nil_r.
  - intros pn page w0 Hpage. simpl.
    rewrite (for_enumerate_written_in _
      (λ ii xref, [(image_path images_dir pn ii (Fitz.ext (img xref)),
                    Binary (Fitz.image (img xref)))])).
    + by rewrite join_imap_singleton.
    + intros ii xref w1 Hxref. simpl. rewrite bind_run. unfold of_res.
      rewrite Hok; [by rewrite write_file_ok|].
      apply elem_of_app. left. apply list_elem_of_join. exists page.
      split; [by eapply list_elem_of_lookup_2 | by eapply list_elem_of_lookup_2].
  - intros w0. simpl.
    rewrite (for_enumerate_fails _
      (λ ii xref, [(image_path images_dir (length pre_pages) ii (Fitz.ext (img xref)),
                    Binary (Fitz.image (img xref)))]) pre post x [] e).
    + by rewrite join_imap_singleton, app_nil_r.
    + intros ii xref w1 Hxref. simpl. rewrite bind_run. unfold of_res.
      rewrite Hok; [by rewrite write_file_ok|].
      apply elem_of_app. right. by eapply list_elem_of_lookup_2.
    + intros w1. simpl. rewrite bind_run. unfold of_res. rewrite Hbad.
      by rewrite written_nil, app_nil_r, world_eta.
Qed.

(** X4: there is no handler around the extraction of an image.  When the
    reader fails on an image, [analyze] raises that exception: the tables
    and the images met before the failing one are on disk, the images after
    it, the markdown and the summary are not written. *)
Theorem image_failure_aborts_export os ext self r (pdf : Fitz.Document)
    (img : nat → Fitz.base_image) pre_pages pre x post rest e w :
  (∀ path, mkdir_error os path = None) →
  (∀ path, open_error os path = None) →
  convert ext (pdf_path self) = Ok r →
  fitz_open ext (pdf_path self) = Ok pdf →
  Fitz.get_images pdf = pre_pages ++ (pre ++ x :: post) :: rest →
  (∀ xref, xref ∈ mjoin pre_pages ++ pre → Fitz.extract_image pdf xref = Ok (img xref)) →
  Fitz.extract_image pdf x = Raise e →
  let p := pdf_path self in
  let done_images :=
    image_writes p ((λ page : list nat, img <$> page) <$> (pre_pages ++ [pre])) in
  let tables := table_writes p (Docling.tables (Docling.document r)) in
  analyze os ext self w
  = (Raise e,
     written done_images
       (logged (EvFitzOpen p)
          (made_dir ("output" // (Path.stem p +:+ "_images"))
             (made_dir "output"
                (written tables (made_dir "output" (logged (EvConvert p) w)))))))
  ∧ files (analyze os ext self w).2 = files (written (tables ++ done_images) w)
  ∧ length done_images = (length (mjoin pre_pages) + length pre)%nat.
Proof.
  intros Hmk Hopen Hconv Hpdf Hpages Hok Hbad p done_images tables.
  assert (analyze os ext self w
          = (Raise e,
             written done_images
               (logged (EvFitzOpen p)
                  (made_dir ("output" // (Path.stem p +:+ "_images"))
                     (made_dir "output"
                        (written tables (made_dir "output" (logged (EvConvert p) w))))))))
    as ->.
  { unfold analyze. rewrite bind_run. simpl. rewrite bind_run. unfold of_res at 1.
    rewrite Hconv. rewrite bind_run, get_statistics_run.
    rewrite bind_run, save_tables_run by done.
    rewrite bind_run.
    by rewrite (save_images_fails os ext _ _ _ pdf img pre_pages pre x post rest e). }
  split_and!.
  - done.
  - unfold written, made_dir, logged. cbn [snd files]. by rewrite foldl_app.
  - unfold done_images. rewrite image_writes_length, images_count.
    rewrite join_app, length_app. simpl. by rewrite app_nil_r.
Qed.

(** X5: when no call fails, [analyze] converts the document once, then
    exports the tables, the images, the markdown and the summary in that
    order, the summary holding the statistics computed right after the
    conversion; it returns the analyzer with the conversion result stored and
    its path unchanged. *)
Theorem pipeline_runs_in_order os ext self r (pdf : Fitz.Document)
    (img : nat → Fitz.base_image) w :
  (∀ path, mkdir_error os path = None) →
  (∀ path, open_error os path = None) →
  convert ext (pdf_path self) = Ok r →
  fitz_open ext (pdf_path self) = Ok pdf →
  (∀ xref, Fitz.extract_image pdf xref = Ok (img xref)) →
  let p := pdf_path self in
  let d := Docling.document r in
  let images := (λ page : list nat, img <$> page) <$> Fitz.get_images pdf in
  (analyze os ext self w).1 = Ok {| pdf_path := p; result := Some r; doc := Some d |}
  ∧ trace (analyze os ext self w).2
    = trace w
      ++ [EvConvert p; EvMkdir "output"]
      ++ (write_event <$> table_writes p (Docling.tables d))
      ++ [EvMkdir "output"; EvMkdir ("output" // (Path.stem p +:+ "_images")); EvFitzOpen p]
      ++ (write_event <$> image_writes p images)
      ++ [EvMkdir "output";
          EvWriteFile ("output" // (Path.stem p +:+ ".md"))
            (Text (Docling.export_to_markdown d));
          EvMkdir "output";
          EvWriteFile ("output" // (Path.stem p +:+ "_summary.json"))
            (JsonReport (now_isoformat os) (document_statistics d))]
  ∧ files (analyze os ext self w).2 = files (written (pipeline_writes os p r images) w)
  ∧ dirs (analyze os ext self w).2
    = {[ "output"; "output" // (Path.stem p +:+ "_images") ]} ∪ dirs w.
Proof.
  intros Hmk Hopen Hconv Hpdf Himg p d images.
  rewrite (analyze_run os ext self r pdf img w) by done. cbn [fst snd].
  split_and!; [done | apply analyzed_trace | apply analyzed_files | apply analyzed_dirs].
Qed.

(** X6: the artifacts of one successful run never collide: the CSV files,
    the image files, the markdown file and the summary file are at pairwise
    different paths, whatever the stem, the tables and the images, so that
    after the run every one of them is on disk with the content written for
    it. *)
Theorem artifacts_all_present os ext self r (pdf : Fitz.Document)
    (img : nat → Fitz.base_image) w :
  (∀ path, mkdir_error os path = None) →
  (∀ path, open_error os path = None) →
  convert ext (pdf_path self) = Ok r →
  fitz_open ext (pdf_path self) = Ok pdf →
  (∀ xref, Fitz.extract_image pdf xref = Ok (img xref)) →
  let images := (λ page : list nat, img <$> page) <$> Fitz.get_images pdf in
  let ws := pipeline_writes os (pdf_path self) r images in
  NoDup ws.*1
  ∧ (∀ path c, (path, c) ∈ ws → files (analyze os ext self w).2 !! path = Some c)
  ∧ length ws = (length (Docling.tables (Docling.document r))
                 + length (mjoin (Fitz.get_images pdf)) + 2)%nat.
Proof.
  intros Hmk Hopen Hconv Hpdf Himg images ws.
  pose proof (pipeline_writes_NoDup os (pdf_path self) r images) as Hnd.
  split_and!.
  - done.
  - intros path c Hin.
    rewrite (analyze_run os ext self r pdf img w) by done. cbn [snd].
    rewrite analyzed_files, written_files. apply lookup_union_Some_l.
    apply elem_of_list_to_map_1.
    + by rewrite fmap_reverse, reverse_Permutation.
    + by apply elem_of_reverse.
  - unfold ws, pipeline_writes. rewrite !length_app, image_writes_length.
    unfold images. rewrite images_count.
    unfold table_writes. rewrite length_imap. simpl. lia.
Qed.

(** X7: running [analyze] again on the analyzer it returned, with the
    engines and the clock answering as before, overwrites the artifacts in
    place: the files and the directories are those the first run left. *)
Theorem pipeline_rerun_idempotent os ext self r (pdf : Fitz.Document)
    (img : nat → Fitz.base_image) w :
  (∀ path, mkdir_error os path = None) →
  (∀ path, open_error os path = None) →
  convert ext (pdf_path self) = Ok r →
  fitz_open ext (pdf_path self) = Ok pdf →
  (∀ xref, Fitz.extract_image pdf xref = Ok (img xref)) →
  ∃ self1 w1,
    analyze os ext self w = (Ok self1, w1)
    ∧ (analyze os ext self1 w1).1 = Ok self1
    ∧ files (analyze os ext self1 w1).2 = files w1
    ∧ dirs (analyze os ext self1 w1).2 = dirs w1.
Proof.
  intros Hmk Hopen Hconv Hpdf Himg.
  eexists _, _. split; [by apply (analyze_run os ext self r pdf img w)|].
  rewrite (analyze_run os ext _ r pdf img) by done. cbn [fst snd pdf_path].
  split_and!.
  - done.
  - rewrite !analyzed_files. apply written_files_twice. by rewrite analyzed_files.
  - rewrite !analyzed_dirs. apply set_eq. intros dir.
    rewrite !elem_of_union. tauto.
Qed.

(** X8: a successful run of [analyze] changes nothing outside the relative
    directory [output]: every path that is not below it holds what it held
    before, the PDF included, every file there is was there before or is
    below [output], and the directories are those from before with [output]
    and the images directory [output/{stem}_images] added, and no other. *)
Theorem pipeline_touches_only_output os ext self r (pdf : Fitz.Document)
    (img : nat → Fitz.base_image) w :
  (∀ path, mkdir_error os path = None) →
  (∀ path, open_error os path = None) →
  convert ext (pdf_path self) = Ok r →
  fitz_open ext (pdf_path self) = Ok pdf →
  (∀ xref, Fitz.extract_image pdf xref = Ok (img xref)) →
  let w' := (analyze os ext self w).2 in
  (∀ path, ¬ under_output path → files w' !! path = files w !! path)
  ∧ (∀ path, path ∈ dom (files w') → path ∈ dom (files w) ∨ under_output path)
  ∧ dirs w' = {[ "output"; "output" // (Path.stem (pdf_path self) +:+ "_images") ]}
              ∪ dirs w.
Proof.
  intros Hmk Hopen Hconv Hpdf Himg w'. unfold w'.
  rewrite (analyze_run os ext self r pdf img w) by done. cbn [snd]. split_and!.
  - intros path Hpath. rewrite analyzed_files. apply written_lookup_other.
    intros Hin. by apply pipeline_writes_under_output in Hin.
  - intros path. apply analyzed_files_under_output.
  - apply analyzed_dirs.
Qed.

(** X9: in the statistics of any document the number of headings is at most
    the number of text elements, and no count is negative. *)
Theorem headings_at_most_texts (p : string) r d w :
  ∃ texts headings tables pictures,
    (_get_statistics {| pdf_path := p; result := r; doc := Some d |} w).1
    = Ok [ ("Document Name", VStr (Docling.name d));
           ("Total Text Elements", VInt texts);
           ("Total Headings", VInt headings);
           ("Total Tables", VInt tables);
           ("Total Pictures", VInt pictures) ]
    ∧ 0 ≤ headings ≤ texts ∧ 0 ≤ tables ∧ 0 ≤ pictures
    ∧ (headings = texts ↔ Forall (λ t, is_heading t = true) (Docling.texts d)).
Proof.
  eexists _, _, _, _. split; [reflexivity|].
  pose proof (List.filter_length_le is_heading (Docling.texts d)) as Hle.
  split_and!; try lia.
  split.
  - intros H. apply Nat2Z.inj in H. apply List.filter_length_forallb in H.
    apply Forall_forall. intros t Ht.
    rewrite List.forallb_forall in H. apply H. by apply list_elem_of_In.
  - intros H. f_equal. f_equal. clear Hle. induction H as [|t l Ht _ IH]; [done|].
    cbn [List.filter]. by rewrite Ht, IH.
Qed.

(** ** Further properties of the endpoint *)

(** X10: an accepted upload that fits the limit is stored byte for byte.  When
    the temp file can be opened and the stream is no longer than the limit,
    the [with open] block returns the length of the stream, the temp file
    holds exactly the stream, and it was written by reads of 8192 bytes each,
    the last one possibly shorter and none empty. *)
Theorem upload_within_limit_stored_intact cfg os temp_path file w :
  open_error os temp_path = None →
  Z.of_nat (length (stream file)) ≤ size_limit cfg →
  ∃ chunks,
    save_upload cfg os temp_path file w
    = (Ok (Z.of_nat (length (stream file))),
       World (<[temp_path := Binary (stream file)]> (files w)) (dirs w)
             (trace w ++ EvOpen temp_path :: (EvAppend temp_path <$> chunks)))
    ∧ mjoin chunks = stream file
    ∧ Forall (λ c, c ≠ []) chunks
    ∧ (∀ i c, chunks !! i = Some c →
         Z.of_nat (length c) ≤ 8192
         ∧ ((S i < length chunks)%nat → Z.of_nat (length c) = 8192)).
Proof.
  intros Hopen Hfit. unfold save_upload. rewrite bind_run, (open_wb_ok os) by done.
  destruct (save_chunks_within cfg temp_path (S (length (stream file))) file 0
              (World (<[temp_path:=Binary []]> (files w)) (dirs w)
                     (trace w ++ [EvOpen temp_path])) [])
    as (chunks & Hrun & Hjoin & Hne & Hsizes);
    [lia | apply lookup_insert_eq | lia |].
  exists chunks. split_and!; [|done..].
  rewrite Hrun. cbn [files dirs trace]. rewrite insert_insert_eq, <- app_assoc. done.
Qed.

(** X12: when the output directory of the job cannot be created, the stored
    upload is deleted again and the job is reported in band with the text of
    the [OSError]: the calls are the opening of the temp file, the writes of
    the whole stream, the failed [mkdir] and the [unlink]; afterwards the
    temp file is gone and the directories are those from before. *)
Theorem job_dir_failure_reported_in_band cfg os ext file w msg :
  let job_id := uuid4 os in
  let temp_path := temp_path_of cfg job_id file in
  PyStr.endswith (PyStr.lower (filename file)) ".pdf" = true →
  Z.of_nat (length (stream file)) ≤ size_limit cfg →
  open_error os temp_path = None →
  mkdir_error os (OUTPUT_DIR cfg // job_id) = Some msg →
  unlink_error os temp_path = None →
  ∃ chunks,
    analyze_document cfg os ext file w
    = (Ok {| job_id := job_id; status := "failed";
             processing_time_seconds := time_end os - time_start os;
             results := None; error := Some msg |},
       World (delete temp_path (files w)) (dirs w)
             (trace w ++ EvOpen temp_path :: (EvAppend temp_path <$> chunks)
                      ++ [EvMkdir (OUTPUT_DIR cfg // job_id); EvUnlink temp_path]))
    ∧ mjoin chunks = stream file.
Proof.
  intros job_id temp_path Hpdf Hfit Hopen Hmk Hunlink.
  destruct (save_chunks_within cfg temp_path (S (length (stream file))) file 0
              (World (<[temp_path:=Binary []]> (files w)) (dirs w)
                     (trace w ++ [EvOpen temp_path])) [])
    as (chunks & Hrun & Hjoin & _); [lia | apply lookup_insert_eq | lia |].
  exists chunks. split; [|done].
  rewrite analyze_document_accepted, guarded_run by done. fold job_id temp_path.
  unfold try_block, save_upload.
  rewrite !bind_run, (open_wb_ok os) by done. rewrite Hrun.
  rewrite bind_run, (mkdir_parents_fails os _ msg) by done.
  cbn [fst snd reported is_HTTPException files dirs trace]. f_equal.
  unfold cleaned. cbn [files dirs trace].
  rewrite lookup_insert_eq, bool_decide_true by done. cbn [orb]. rewrite Hunlink.
  rewrite !delete_insert_eq, <- !app_assoc. done.
Qed.

(** X13: as the endpoint is written, no request ends in a completed job.
    Every descriptor the endpoint returns has status failed, no results and
    an error text.  And when the temp file can be opened, the outcome is the
    400 of a wrong extension, the 413 of an oversize upload, or such a
    descriptor, whose error is the [OSError] of the [mkdir] of the job
    directory or the [TypeError] of the constructor call. *)
Theorem endpoint_never_completes cfg os ext file w :
  let job_id := uuid4 os in
  let temp_path := temp_path_of cfg job_id file in
  let out := (analyze_document cfg os ext file w).1 in
  (∀ r, out = Ok r → status r = "failed" ∧ results r = None ∧ is_Some (error r))
  ∧ (open_error os temp_path = None →
     out = Raise (HTTPException 400 "Only PDF files are supported")
     ∨ out = Raise (too_large cfg)
     ∨ ∃ e, out = Ok (failed_result os job_id e)
            ∧ ((∃ msg, e = OSError msg
                       ∧ mkdir_error os (OUTPUT_DIR cfg // job_id) = Some msg)
               ∨ e = TypeError
                    "DocumentAnalyzer.__init__() got an unexpected keyword argument 'output_dir'")).
Proof.
  intros job_id temp_path out.
  assert (out = Raise (HTTPException 400 "Only PDF files are supported")
          ∨ out = Raise (too_large cfg)
          ∨ ∃ e, out = Ok (failed_result os job_id e)
              ∧ ((∃ msg, e = OSError msg
                         ∧ (open_error os temp_path = Some msg
                            ∨ mkdir_error os (OUTPUT_DIR cfg // job_id) = Some msg))
                 ∨ e = TypeError
                      "DocumentAnalyzer.__init__() got an unexpected keyword argument 'output_dir'"))
    as Hout.
  { subst out job_id temp_path.
    destruct (PyStr.endswith (PyStr.lower (filename file)) ".pdf") eqn:Hpdf.
    - rewrite analyze_document_accepted, guarded_run by done. cbn [fst].
      destruct (try_block_outcome cfg os ext (uuid4 os)
                  (temp_path_of cfg (uuid4 os) file) file w) as (e & -> & He).
      destruct He as [->|[(msg & -> & Hmsg)| ->]].
      + right. by left.
      + do 2 right. eexists. split; [done|]. left. by eexists.
      + do 2 right. eexists. split; [done|]. by right.
    - left. unfold analyze_document. by rewrite Hpdf. }
  split.
  - intros r Hr. destruct Hout as [H|[H|(e & H & _)]]; rewrite H in Hr; [done | done |].
    injection Hr as <-. cbn [failed_result status results error]. done.
  - intros Hopen. destruct Hout as [H|[H|(e & H & He)]]; [by left | right; by left |].
    do 2 right. exists e. split; [done|].
    destruct He as [(msg & -> & [Hmsg|Hmsg])|He]; [congruence | | by right].
    left. by exists msg.
Qed.

(** X14: a request touches nothing but its own temp file and its own output
    directory.  Whatever the outcome, every file other than the temp file of
    the job is as before, no directory disappears and at most the output
    directory of the job and its ancestors appear, and every call made is an
    [open], [write] or [unlink] on the temp file or the [mkdir] of that
    directory: neither engine is called and no other file is written. *)
Theorem endpoint_touches_only_its_job cfg os ext file w :
  let job_id := uuid4 os in
  job_footprint (temp_path_of cfg job_id file) (OUTPUT_DIR cfg // job_id)
    w (analyze_document cfg os ext file w).2.
Proof.
  intros job_id.
  destruct (PyStr.endswith (PyStr.lower (filename file)) ".pdf") eqn:Hpdf.
  - rewrite analyze_document_accepted, guarded_run by done. cbn [snd]. fold job_id.
    eapply footprint_trans; [apply footprint_try_block | apply footprint_cleaned].
  - unfold analyze_document. rewrite Hpdf. apply footprint_refl.
Qed.

(** X15: the paths of two jobs never coincide.  For job identifiers without
    an underscore, as the strings of [uuid4] are, two different identifiers
    give different temp paths, whatever the file names of the uploads, and
    different output directories. *)
Theorem distinct_jobs_have_distinct_paths cfg j1 j2 f1 f2 :
  "_"%char ∉ PyStr.chars j1 → "_"%char ∉ PyStr.chars j2 → j1 ≠ j2 →
  temp_path_of cfg j1 f1 ≠ temp_path_of cfg j2 f2
  ∧ OUTPUT_DIR cfg // j1 ≠ OUTPUT_DIR cfg // j2.
Proof.
  intros H1 H2 Hne. unfold temp_path_of, Path.join. split; intros E; apply Hne.
  - apply (f_equal PyStr.chars) in E. rewrite !chars_app in E.
    apply app_inv_head in E. cbn [PyStr.chars String.list_ascii_of_string app] in E.
    injection E as E.
    apply delimited_by in E as [E _]; [|done..]. by apply chars_inj.
  - apply (f_equal PyStr.chars) in E. rewrite !chars_app in E.
    apply app_inv_head, app_inv_head in E. by apply chars_inj.
Qed.

(** X16: what follows a successful construction of the analyzer.  When
    [analyze] returns, the guarded block returns a completed job: no error,
    the processing time, the markdown, summary and image paths formed from
    the job directory and the stem of the temp path, and as tables exactly
    what the glob for the stem's table pattern finds in the job directory
    after the analysis; the world is that of the analysis, with the glob
    logged and the temp file cleaned up. *)
Theorem analysis_success_is_completed_job os ext job temp_path job_output_dir
    analyzer analyzer' w w1 :
  analyze os ext analyzer w = (Ok analyzer', w1) →
  guarded os job temp_path
    (after_construction os ext job temp_path job_output_dir analyzer) w
  = (Ok {| job_id := job; status := "completed";
           processing_time_seconds := time_end os - time_start os;
           results := Some {|
             results_job_id := job;
             markdown_path := job_output_dir // (Path.stem temp_path +:+ ".md");
             summary_path := job_output_dir // (Path.stem temp_path +:+ "_summary.json");
             results_tables :=
               glob os (files w1) job_output_dir (Path.stem temp_path +:+ "_table_*.csv");
             images_dir := job_output_dir // (Path.stem temp_path +:+ "_images") |};
           error := None |},
     cleaned os temp_path
       (logged (EvGlob job_output_dir (Path.stem temp_path +:+ "_table_*.csv")) w1)).
Proof.
  intros Hrun. rewrite guarded_run.
  unfold after_construction, run_analysis. rewrite bind_run. unfold try_except.
  rewrite Hrun. unfold collect_results. rewrite bind_run. done.
Qed.

(** ** Further properties of the service *)

(** X17: the readiness probe answers all or nothing and changes nothing.  It
    returns a response exactly when a converter can be built and both the
    output and the temp directory exist, and then both flags of the response
    are true; in every other case it raises the 503 "Service not ready", so
    no response ever carries a false flag. *)
Theorem readiness_all_or_nothing cfg DocumentConverter w :
  let there p := is_Some (files w !! p) ∨ p ∈ dirs w in
  let ready := (∃ u, DocumentConverter = Ok u)
               ∧ there (OUTPUT_DIR cfg) ∧ there (TEMP_DIR cfg) in
  (readiness_check cfg DocumentConverter w).2 = w
  ∧ (ready →
     (readiness_check cfg DocumentConverter w).1
     = Ok {| Readiness.status := "ready"; Readiness.docling_ready := true;
             Readiness.storage_ready := true |})
  ∧ (¬ ready →
     (readiness_check cfg DocumentConverter w).1
     = Raise (HTTPException 503 "Service not ready")).
Proof.
  intros there ready. subst there ready. cbv beta. rewrite readiness_check_run.
  cbn [fst snd].
  assert (∀ p, (bool_decide (is_Some (files w !! p)) || bool_decide (p ∈ dirs w)) = true
               ↔ is_Some (files w !! p) ∨ p ∈ dirs w) as Hthere.
  { intros p. by rewrite orb_true_iff, !bool_decide_eq_true. }
  split_and!; [done | |].
  - intros ([u ->] & Ho%Hthere & Ht%Hthere). by rewrite Ho, Ht.
  - intros Hnot. destruct DocumentConverter as [u|e]; [|done]. cbn [andb].
    destruct (_ && _) eqn:Hboth; [|done].
    apply andb_true_iff in Hboth as [Ho%Hthere Ht%Hthere].
    exfalso. apply Hnot. split_and!; [by eexists | done | done].
Qed.

(** X18: after a start-up in which both directories could be made, storage
    is ready, whatever the trial construction of the converter did: start-up
    returns, it writes no file and adds the two directories with their
    ancestors, and a later readiness probe answers ready when the converter
    can be built then and 503 when it cannot. *)
Theorem startup_makes_storage_ready cfg os at_startup at_probe w :
  mkdir_error os (OUTPUT_DIR cfg) = None →
  mkdir_error os (TEMP_DIR cfg) = None →
  ∃ w1,
    lifespan_startup cfg os at_startup w = (Ok tt, w1)
    ∧ files w1 = files w
    ∧ dirs w1 = list_to_set (TEMP_DIR cfg :: Path.parents (TEMP_DIR cfg))
                ∪ (list_to_set (OUTPUT_DIR cfg :: Path.parents (OUTPUT_DIR cfg)) ∪ dirs w)
    ∧ trace w1 = trace w ++ [EvMkdir (OUTPUT_DIR cfg); EvMkdir (TEMP_DIR cfg)]
    ∧ readiness_check cfg at_probe w1
      = (match at_probe with
         | Ok _ => Ok {| Readiness.status := "ready"; Readiness.docling_ready := true;
                         Readiness.storage_ready := true |}
         | Raise _ => Raise (HTTPException 503 "Service not ready")
         end, w1).
Proof.
  intros Ho Ht. eexists. split.
  { unfold lifespan_startup, setup_directories.
    rewrite !bind_run, (mkdir_parents_ok os) by done.
    rewrite (mkdir_parents_ok os) by done.
    unfold try_except, of_res. by destruct at_startup as [[]|e]. }
  unfold made_dirs. cbn [files dirs trace]. rewrite <- app_assoc.
  split_and!; [done | done | done |].
  rewrite readiness_check_run. cbn [files dirs].
  rewrite (bool_decide_true (OUTPUT_DIR cfg ∈ _)) by set_solver.
  rewrite (bool_decide_true (TEMP_DIR cfg ∈ _)) by set_solver.
  rewrite !orb_true_r.
  destruct at_probe as [[]|e]; done.
Qed.


(** X20: the CORS origins are the comma-separated pieces of the setting, and
    joining them with commas gives the setting back.  The list is never
    empty, no origin holds a comma, and the special case for the setting
    [*] yields what the split yields. *)
Theorem cors_origins_round_trip CORS_ORIGINS :
  join_comma (cors_origins CORS_ORIGINS) = CORS_ORIGINS
  ∧ cors_origins CORS_ORIGINS = split_comma CORS_ORIGINS
  ∧ cors_origins CORS_ORIGINS ≠ []
  ∧ Forall (λ origin, ","%char ∉ PyStr.chars origin) (cors_origins CORS_ORIGINS).
Proof.
  assert (cors_origins CORS_ORIGINS = split_comma CORS_ORIGINS) as ->.
  { unfold cors_origins. case_bool_decide as H; [done|].
    subst. reflexivity. }
  unfold join_comma, split_comma. split_and!.
  - rewrite join_split_chars. apply String.string_of_list_ascii_of_string.
  - done.
  - intros H%fmap_nil_inv. by apply split_chars_nonempty in H.
  - apply Forall_fmap, Forall_forall. intros piece Hp. cbn.
    unfold PyStr.chars. rewrite String.list_ascii_of_string_of_list_ascii.
    by apply split_chars_pieces in Hp.
Qed.

(** X21: the log level is read without regard to case by the logger and by
    the server, but not by the error handler.  For a [LOG_LEVEL] that is
    [debug] in any mix of cases, [setup_logging] looks up [DEBUG] and [main]
    hands [debug] to the server; yet unless it is spelled [DEBUG] exactly,
    the handler answers every exception with status 500 and the fixed detail,
    not the text of the exception. *)
Theorem debug_level_case LOG_LEVEL exc :
  PyStr.lower LOG_LEVEL = "debug" →
  setup_logging_level_name LOG_LEVEL = "DEBUG"
  ∧ uvicorn_log_level LOG_LEVEL = "debug"
  ∧ (LOG_LEVEL ≠ "DEBUG" →
     global_exception_handler LOG_LEVEL exc
     = {| status_code := 500;
          json_content := [("error", "Internal server error");
                           ("detail", "An unexpected error occurred")] |})
  ∧ (LOG_LEVEL = "DEBUG" →
     global_exception_handler LOG_LEVEL exc
     = {| status_code := 500;
          json_content := [("error", "Internal server error");
                           ("detail", str_exn exc)] |}).
Proof.
  intros H. unfold setup_logging_level_name, uvicorn_log_level, global_exception_handler.
  split_and!.
  - by rewrite <- upper_lower, H.
  - done.
  - intros Hne. by rewrite bool_decide_false.
  - intros He. by rewrite bool_decide_true.
Qed.

(** ** The further properties at the sample inputs *)

Lemma exporters_refuse_witness :
  DocumentAnalyzer_new ["/data/report.pdf"] [] empty_world
  = (Ok (new_analyzer "/data/report.pdf"), empty_world)
  ∧ _save_tables sample_os (new_analyzer "/data/report.pdf") empty_world
    = (Raise (ValueError "Document not converted yet. Call analyze() first."), empty_world).
Proof.
  split; [reflexivity|].
  apply (exporters_refuse_before_analyze sample_os sample_engines ["/data/report.pdf"] []
           (new_analyzer "/data/report.pdf") empty_world empty_world empty_world eq_refl).
Defined.

Lemma conversion_failure_witness :
  convert rejecting_engines (pdf_path (new_analyzer "/data/report.pdf"))
  = Raise (EngineError "not a PDF")
  ∧ dirs (analyze sample_os rejecting_engines (new_analyzer "/data/report.pdf")
            empty_world).2 = dirs empty_world.
Proof.
  split; [reflexivity|].
  apply (conversion_failure_writes_nothing sample_os rejecting_engines
           (new_analyzer "/data/report.pdf") (EngineError "not a PDF") empty_world eq_refl).
Defined.

Lemma pdf_open_failure_witness :
  (∀ path, mkdir_error sample_os path = None)
  ∧ (∀ path, open_error sample_os path = None)
  ∧ convert unreadable_engines "/data/report.pdf" = Ok {| Docling.document := sample_document |}
  ∧ fitz_open unreadable_engines "/data/report.pdf" = Raise (EngineError "cannot open")
  ∧ files (analyze sample_os unreadable_engines (new_analyzer "/data/report.pdf")
             empty_world).2
    = files (written (table_writes "/data/report.pdf" (Docling.tables sample_document))
               empty_world).
Proof.
  split_and!; [intros path; reflexivity | intros path; reflexivity | reflexivity
              | reflexivity |].
  apply (pdf_open_failure_leaves_tables sample_os unreadable_engines
           (new_analyzer "/data/report.pdf") {| Docling.document := sample_document |}
           (EngineError "cannot open") empty_world
           (λ _, eq_refl) (λ _, eq_refl) eq_refl eq_refl).
Defined.

Lemma image_failure_witness :
  (∀ path, mkdir_error sample_os path = None)
  ∧ (∀ path, open_error sample_os path = None)
  ∧ Fitz.get_images damaged_pdf = [] ++ ([7%nat] ++ 8%nat :: []) :: [[]; [9%nat]]
  ∧ (∀ xref, xref ∈ mjoin [] ++ [7%nat] →
       Fitz.extract_image damaged_pdf xref = Ok (sample_image xref))
  ∧ Fitz.extract_image damaged_pdf 8 = Raise (EngineError "bad xref")
  ∧ (analyze sample_os damaged_engines (new_analyzer "/data/report.pdf") empty_world).1
    = Raise (EngineError "bad xref").
Proof.
  assert (∀ xref, xref ∈ mjoin [] ++ [7%nat] →
            Fitz.extract_image damaged_pdf xref = Ok (sample_image xref)) as Hok.
  { intros xref Hx. simpl in Hx. apply list_elem_of_singleton in Hx. subst xref.
    reflexivity. }
  split_and!; [intros path; reflexivity | intros path; reflexivity | reflexivity
              | exact Hok | reflexivity |].
  destruct (image_failure_aborts_export sample_os damaged_engines
              (new_analyzer "/data/report.pdf") {| Docling.document := sample_document |}
              damaged_pdf sample_image [] [7%nat] 8%nat [] [[]; [9%nat]]
              (EngineError "bad xref") empty_world
              (λ _, eq_refl) (λ _, eq_refl) eq_refl eq_refl eq_refl Hok eq_refl)
    as (Hrun & _).
  rewrite Hrun. reflexivity.
Defined.

Lemma pipeline_order_witness :
  (∀ path, mkdir_error sample_os path = None)
  ∧ (∀ path, open_error sample_os path = None)
  ∧ convert sample_engines "/data/report.pdf" = Ok {| Docling.document := sample_document |}
  ∧ fitz_open sample_engines "/data/report.pdf" = Ok sample_pdf
  ∧ (∀ xref, Fitz.extract_image sample_pdf xref = Ok (sample_image xref))
  ∧ (analyze sample_os sample_engines (new_analyzer "/data/report.pdf") empty_world).1
    = Ok {| pdf_path := "/data/report.pdf";
            result := Some {| Docling.document := sample_document |};
            doc := Some sample_document |}.
Proof.
  split_and!; [intros path; reflexivity | intros path; reflexivity | reflexivity
              | reflexivity | intros xref; reflexivity |].
  apply (pipeline_runs_in_order sample_os sample_engines (new_analyzer "/data/report.pdf")
           {| Docling.document := sample_document |} sample_pdf sample_image empty_world
           (λ _, eq_refl) (λ _, eq_refl) eq_refl eq_refl (λ _, eq_refl)).
Defined.

Lemma artifacts_present_witness :
  (∀ path, mkdir_error sample_os path = None)
  ∧ (∀ path, open_error sample_os path = None)
  ∧ fitz_open sample_engines "/data/report.pdf" = Ok sample_pdf
  ∧ NoDup (pipeline_writes sample_os "/data/report.pdf"
             {| Docling.document := sample_document |}
             ((λ page : list nat, sample_image <$> page) <$> Fitz.get_images sample_pdf)).*1.
Proof.
  split_and!; [intros path; reflexivity | intros path; reflexivity | reflexivity |].
  apply (artifacts_all_present sample_os sample_engines (new_analyzer "/data/report.pdf")
           {| Docling.document := sample_document |} sample_pdf sample_image empty_world
           (λ _, eq_refl) (λ _, eq_refl) eq_refl eq_refl (λ _, eq_refl)).
Defined.

Lemma pipeline_rerun_witness :
  (∀ path, mkdir_error sample_os path = None)
  ∧ (∀ path, open_error sample_os path = None)
  ∧ fitz_open sample_engines "/data/report.pdf" = Ok sample_pdf
  ∧ ∃ self1 w1,
      analyze sample_os sample_engines (new_analyzer "/data/report.pdf") empty_world
      = (Ok self1, w1)
      ∧ files (analyze sample_os sample_engines self1 w1).2 = files w1.
Proof.
  split_and!; [intros path; reflexivity | intros path; reflexivity | reflexivity |].
  destruct (pipeline_rerun_idempotent sample_os sample_engines
              (new_analyzer "/data/report.pdf")
              {| Docling.document := sample_document |} sample_pdf sample_image empty_world
              (λ _, eq_refl) (λ _, eq_refl) eq_refl eq_refl (λ _, eq_refl))
    as (self1 & w1 & Hrun & _ & Hfiles & _).
  exists self1, w1. split; [exact Hrun | exact Hfiles].
Defined.

Lemma pipeline_frame_witness :
  (∀ path, mkdir_error sample_os path = None)
  ∧ (∀ path, open_error sample_os path = None)
  ∧ fitz_open sample_engines "/data/report.pdf" = Ok sample_pdf
  ∧ ∀ path, ¬ under_output path →
      files (analyze sample_os sample_engines (new_analyzer "/data/report.pdf")
               empty_world).2 !! path = files empty_world !! path.
Proof.
  split_and!; [intros path; reflexivity | intros path; reflexivity | reflexivity |].
  apply (pipeline_touches_only_output sample_os sample_engines
           (new_analyzer "/data/report.pdf")
           {| Docling.document := sample_document |} sample_pdf sample_image empty_world
           (λ _, eq_refl) (λ _, eq_refl) eq_refl eq_refl (λ _, eq_refl)).
Defined.

Lemma upload_stored_witness :
  open_error sample_os "/app/data/temp/j1_report.pdf" = None
  ∧ Z.of_nat (length (stream sample_upload)) ≤ size_limit sample_config
  ∧ ∃ chunks,
      (save_upload sample_config sample_os "/app/data/temp/j1_report.pdf" sample_upload
         empty_world).1 = Ok 4
      ∧ mjoin chunks = stream sample_upload.
Proof.
  assert (Z.of_nat (length (stream sample_upload)) ≤ size_limit sample_config) as Hfit
    by (vm_compute; discriminate).
  split_and!; [reflexivity | exact Hfit |].
  destruct (upload_within_limit_stored_intact sample_config sample_os
              "/app/data/temp/j1_report.pdf" sample_upload empty_world eq_refl Hfit)
    as (chunks & Hrun & Hjoin & _).
  exists chunks. split; [|exact Hjoin]. rewrite Hrun. reflexivity.
Defined.

Lemma job_dir_failure_witness :
  PyStr.endswith (PyStr.lower (filename sample_upload)) ".pdf" = true
  ∧ Z.of_nat (length (stream sample_upload)) ≤ size_limit sample_config
  ∧ open_error no_mkdir_os (temp_path_of sample_config (uuid4 no_mkdir_os) sample_upload)
    = None
  ∧ mkdir_error no_mkdir_os (OUTPUT_DIR sample_config // uuid4 no_mkdir_os)
    = Some "Permission denied"
  ∧ unlink_error no_mkdir_os
      (temp_path_of sample_config (uuid4 no_mkdir_os) sample_upload) = None
  ∧ (analyze_document sample_config no_mkdir_os sample_engines sample_upload
       empty_world).1
    = Ok {| job_id := "j1"; status := "failed"; processing_time_seconds := 150;
            results := None; error := Some "Permission denied" |}.
Proof.
  assert (Z.of_nat (length (stream sample_upload)) ≤ size_limit sample_config) as Hfit
    by (vm_compute; discriminate).
  split_and!; [reflexivity | exact Hfit | reflexivity | reflexivity | reflexivity |].
  destruct (job_dir_failure_reported_in_band sample_config no_mkdir_os sample_engines
              sample_upload empty_world "Permission denied" eq_refl Hfit eq_refl eq_refl
              eq_refl) as (chunks & Hrun & _).
  rewrite Hrun. reflexivity.
Defined.

Lemma endpoint_never_completes_witness :
  open_error sample_os (temp_path_of sample_config (uuid4 sample_os) sample_upload) = None
  ∧ (∀ r, (analyze_document sample_config sample_os sample_engines sample_upload
             empty_world).1 = Ok r → status r = "failed")
  ∧ ((analyze_document sample_config sample_os sample_engines sample_upload empty_world).1
     ≠ Raise (HTTPException 400 "Only PDF files are supported")).
Proof.
  split_and!; [reflexivity | | discriminate].
  intros r Hr.
  exact (proj1 (proj1 (endpoint_never_completes sample_config sample_os sample_engines
                         sample_upload empty_world) r Hr)).
Defined.

Lemma distinct_jobs_witness :
  ("_"%char ∉ PyStr.chars "j1") ∧ ("_"%char ∉ PyStr.chars "j2") ∧ "j1" ≠ "j2"
  ∧ temp_path_of sample_config "j1" sample_upload
    ≠ temp_path_of sample_config "j2" sample_upload.
Proof.
  assert ("_"%char ∉ PyStr.chars "j1") as H1 by compute_done.
  assert ("_"%char ∉ PyStr.chars "j2") as H2 by compute_done.
  assert ("j1" ≠ "j2") as Hne by discriminate.
  split_and!; [exact H1 | exact H2 | exact Hne |].
  exact (proj1 (distinct_jobs_have_distinct_paths sample_config "j1" "j2" sample_upload
                  sample_upload H1 H2 Hne)).
Defined.

Lemma completed_job_witness :
  analyze sample_os sample_engines (new_analyzer "/app/data/temp/j1_report.pdf") empty_world
  = (Ok {| pdf_path := "/app/data/temp/j1_report.pdf";
           result := Some {| Docling.document := sample_document |};
           doc := Some sample_document |},
     analyzed sample_os "/app/data/temp/j1_report.pdf"
       {| Docling.document := sample_document |}
       ((λ page : list nat, sample_image <$> page) <$> Fitz.get_images sample_pdf)
       empty_world)
  ∧ (guarded sample_os "j1" "/app/data/temp/j1_report.pdf"
       (after_construction sample_os sample_engines "j1" "/app/data/temp/j1_report.pdf"
          "/app/data/output/j1" (new_analyzer "/app/data/temp/j1_report.pdf"))
       empty_world).1
    = Ok {| job_id := "j1"; status := "completed"; processing_time_seconds := 150;
            results := Some {|
              results_job_id := "j1";
              markdown_path := "/app/data/output/j1/j1_report.md";
              summary_path := "/app/data/output/j1/j1_report_summary.json";
              results_tables := [];
              images_dir := "/app/data/output/j1/j1_report_images" |};
            error := None |}.
Proof.
  pose proof (analyze_run sample_os sample_engines
                (new_analyzer "/app/data/temp/j1_report.pdf")
                {| Docling.document := sample_document |} sample_pdf sample_image
                empty_world (λ _, eq_refl) (λ _, eq_refl) eq_refl eq_refl (λ _, eq_refl))
    as Hrun.
  split; [exact Hrun|].
  rewrite (analysis_success_is_completed_job sample_os sample_engines "j1"
             "/app/data/temp/j1_report.pdf" "/app/data/output/j1"
             (new_analyzer "/app/data/temp/j1_report.pdf") _ empty_world _ Hrun).
  reflexivity.
Defined.

Lemma readiness_witness :
  ((∃ u, Ok tt = Ok u)
   ∧ (is_Some (files ready_world !! OUTPUT_DIR sample_config)
      ∨ OUTPUT_DIR sample_config ∈ dirs ready_world)
   ∧ (is_Some (files ready_world !! TEMP_DIR sample_config)
      ∨ TEMP_DIR sample_config ∈ dirs ready_world))
  ∧ (readiness_check sample_config (Ok tt) ready_world).1
    = Ok {| Readiness.status := "ready"; Readiness.docling_ready := true;
            Readiness.storage_ready := true |}.
Proof.
  assert ((∃ u, Ok tt = Ok u)
          ∧ (is_Some (files ready_world !! OUTPUT_DIR sample_config)
             ∨ OUTPUT_DIR sample_config ∈ dirs ready_world)
          ∧ (is_Some (files ready_world !! TEMP_DIR sample_config)
             ∨ TEMP_DIR sample_config ∈ dirs ready_world)) as Hready.
  { split_and!; [by exists tt | right; compute_done | right; compute_done]. }
  split; [exact Hready|].
  exact (proj1 (proj2 (readiness_all_or_nothing sample_config (Ok tt) ready_world)) Hready).
Defined.

Lemma startup_witness :
  mkdir_error sample_os (OUTPUT_DIR sample_config) = None
  ∧ mkdir_error sample_os (TEMP_DIR sample_config) = None
  ∧ ∃ w1,
      lifespan_startup sample_config sample_os (Raise (EngineError "no models")) empty_world
      = (Ok tt, w1)
      ∧ (readiness_check sample_config (Ok tt) w1).1
        = Ok {| Readiness.status := "ready"; Readiness.docling_ready := true;
                Readiness.storage_ready := true |}.
Proof.
  split_and!; [reflexivity | reflexivity |].
  destruct (startup_makes_storage_ready sample_config sample_os
              (Raise (EngineError "no models")) (Ok tt) empty_world eq_refl eq_refl)
    as (w1 & Hrun & _ & _ & _ & Hready).
  exists w1. split; [exact Hrun|]. rewrite Hready. reflexivity.
Defined.


Lemma debug_level_witness :
  PyStr.lower "Debug" = "debug"
  ∧ setup_logging_level_name "Debug" = "DEBUG"
  ∧ global_exception_handler "Debug" (ValueError "secret")
    = {| status_code := 500;
         json_content := [("error", "Internal server error");
                          ("detail", "An unexpected error occurred")] |}.
Proof.
  assert ("Debug" ≠ "DEBUG") as Hne by discriminate.
  split; [reflexivity|].
  destruct (debug_level_case "Debug" (ValueError "secret") eq_refl) as (H1 & _ & H2 & _).
  split; [exact H1 | exact (H2 Hne)].
Defined.
